(** * Edge function handler (packages/node/src/edge-functions/edge-handler.ts)

    A shallow embedding of the dev-mode edge handler: module initialisation
    (node version probe), [serializeRequest], [compileUserCode],
    [createEdgeRuntime], [createEdgeEventHandler] and [extractUrlPath].

    The bundler, the sandbox runtime, the HTTP client and the console are
    collaborators: they appear as oracles of a [World] and as events of a
    trace, in the order in which the code reaches them. *)

From Stdlib Require Import String Ascii List ZArith NArith Lia Bool.
From Stdlib.Strings Require Import Byte.
From stdpp Require Import base option gmap strings list.
Import ListNotations.
Open Scope string_scope.

#[local] Set Warnings "-register-all".

(** ** JavaScript strings *)

Module JsString.

(** [s.split(sep)] for a one-character separator: never empty, one more
    part than there are separators. *)
Fixpoint split (sep : ascii) (s : string) : list string :=
  match s with
  | EmptyString => [EmptyString]
  | String c s' =>
      if Ascii.eqb c sep then EmptyString :: split sep s'
      else match split sep s' with
           | [] => [String c EmptyString]
           | p :: ps => String c p :: ps
           end
  end.

(** [parts.join(sep)] *)
Fixpoint join (sep : string) (parts : list string) : string :=
  match parts with
  | [] => EmptyString
  | [p] => p
  | p :: ps => p +:+ sep +:+ join sep ps
  end.

(** [parts.pop()] seen as the array it leaves behind. *)
Definition pop (parts : list string) : list string := removelast parts.

(** No occurrence of the character [c] in [s]. *)
Fixpoint free_of (c : ascii) (s : string) : bool :=
  match s with
  | EmptyString => true
  | String d s' => negb (Ascii.eqb d c) && free_of c s'
  end.

(** Every character of [s] satisfies [p]. *)
Fixpoint every (p : ascii -> bool) (s : string) : bool :=
  match s with
  | EmptyString => true
  | String c s' => p c && every p s'
  end.

Definition of_char (c : ascii) : string := String c EmptyString.

(** Template-literal rendering of a boolean. *)
Definition of_bool (b : bool) : string := if b then "true" else "false".

End JsString.

(** ** Route label: [extractUrlPath] *)

(** turns "api/some.func.js" into "api/some.func" *)
Definition extractUrlPath (entrypointRelativePath : string) : string :=
  let parts := JsString.split "." entrypointRelativePath in
  if Nat.eqb (List.length parts) 1 then entrypointRelativePath
  else JsString.join "." (JsString.pop parts).

(** ** Bytes and Base64: [bodyBuffer.toString('base64')] *)

Module Base64.

Definition alphabet : string :=
  "ABCDEFGHIJKLMNOPQRSTUVWXYZabcdefghijklmnopqrstuvwxyz0123456789+/".

Definition pad : ascii := "=".

(** The character of a 6-bit group. *)
Definition digit (i : N) : ascii :=
  match String.get (N.to_nat i) alphabet with
  | Some c => c
  | None => pad
  end.

(** The 6-bit group of a character of the alphabet. *)
Definition value (c : ascii) : option N :=
  let n := N_of_ascii c in
  if (65 <=? n)%N && (n <=? 90)%N then Some (n - 65)%N
  else if (97 <=? n)%N && (n <=? 122)%N then Some (n - 71)%N
  else if (48 <=? n)%N && (n <=? 57)%N then Some (n + 4)%N
  else if (n =? 43)%N then Some 62%N
  else if (n =? 47)%N then Some 63%N
  else None.

(** Three bytes give four characters; one or two trailing bytes are
    padded with [=]. *)
Fixpoint encode (bs : list byte) : string :=
  match bs with
  | [] => EmptyString
  | [a] =>
      let x := Byte.to_N a in
      String (digit (x / 4)) (String (digit (x mod 4 * 16))
        (String pad (String pad EmptyString)))
  | [a; b] =>
      let x := Byte.to_N a in
      let y := Byte.to_N b in
      String (digit (x / 4)) (String (digit (x mod 4 * 16 + y / 16))
        (String (digit (y mod 16 * 4)) (String pad EmptyString)))
  | a :: b :: c :: rest =>
      let x := Byte.to_N a in
      let y := Byte.to_N b in
      let z := Byte.to_N c in
      String (digit (x / 4)) (String (digit (x mod 4 * 16 + y / 16))
        (String (digit (y mod 16 * 4 + z / 64)) (String (digit (z mod 64))
          (encode rest))))
  end.

(** A character that [encode] can produce. *)
Definition is_char (c : ascii) : bool :=
  match value c with
  | Some _ => true
  | None => Ascii.eqb c pad
  end.

Definition byte_of (n : N) : byte :=
  match Byte.of_N n with
  | Some b => b
  | None => Byte.x00
  end.

Fixpoint decode (s : string) : option (list byte) :=
  match s with
  | EmptyString => Some []
  | String c1 (String c2 (String c3 (String c4 rest))) =>
      match value c1, value c2, value c3, value c4 with
      | Some s1, Some s2, Some s3, Some s4 =>
          match decode rest with
          | Some bs =>
              Some (byte_of (s1 * 4 + s2 / 16)
                      :: byte_of (s2 mod 16 * 16 + s3 / 4)
                      :: byte_of (s3 mod 4 * 64 + s4) :: bs)
          | None => None
          end
      | Some s1, Some s2, Some s3, None =>
          if Ascii.eqb c4 pad && String.eqb rest EmptyString
          then Some [byte_of (s1 * 4 + s2 / 16);
                     byte_of (s2 mod 16 * 16 + s3 / 4)]
          else None
      | Some s1, Some s2, None, None =>
          if Ascii.eqb c3 pad && Ascii.eqb c4 pad
             && String.eqb rest EmptyString
          then Some [byte_of (s1 * 4 + s2 / 16)]
          else None
      | _, _, _, _ => None
      end
  | _ => None
  end.

End Base64.

(** ** JSON: [JSON.stringify] on the values the handler serializes *)

Module Json.

#[local] Unset Elimination Schemes.

(** [Undefined] stands for a property whose value is [undefined]. *)
Inductive value :=
| Undefined
| Str (s : string)
| Arr (xs : list value)
| Obj (props : list (string * value)).

#[local] Set Elimination Schemes.

Definition dquote : ascii := "034".
Definition backslash : ascii := "092".

Definition hex_digit (n : N) : ascii :=
  match String.get (N.to_nat n) "0123456789abcdef" with
  | Some c => c
  | None => "0"
  end.

(** The escape of one character inside a JSON string literal. *)
Definition escape (c : ascii) : string :=
  let n := N_of_ascii c in
  if Ascii.eqb c dquote then String backslash (String dquote EmptyString)
  else if Ascii.eqb c backslash
    then String backslash (String backslash EmptyString)
  else if (n =? 8)%N then String backslash "b"
  else if (n =? 9)%N then String backslash "t"
  else if (n =? 10)%N then String backslash "n"
  else if (n =? 12)%N then String backslash "f"
  else if (n =? 13)%N then String backslash "r"
  else if (n <? 32)%N
    then String backslash
           (String "u" (String "0" (String "0"
             (String (hex_digit (n / 16))
               (String (hex_digit (n mod 16)) EmptyString)))))
  else String c EmptyString.

Fixpoint escape_all (s : string) : string :=
  match s with
  | EmptyString => EmptyString
  | String c s' => escape c +:+ escape_all s'
  end.

Definition quote (s : string) : string :=
  String dquote (escape_all s +:+ String dquote EmptyString).

(** [JSON.stringify v]: [None] is JavaScript's [undefined]. Inside an
    array [undefined] prints as [null]; a property whose value is
    [undefined] is left out of its object. *)
Fixpoint stringify (v : value) : option string :=
  match v with
  | Undefined => None
  | Str s => Some (quote s)
  | Arr xs =>
      Some ("[" +:+ JsString.join ","
              (List.map (fun x => default "null" (stringify x)) xs)
            +:+ "]")
  | Obj props =>
      Some ("{" +:+ JsString.join ","
              (omap (fun p =>
                       match p with
                       | (k, x) =>
                           (fun r => quote k +:+ ":" +:+ r) <$> stringify x
                       end) props)
            +:+ "}")
  end.

(** [obj[k]] *)
Fixpoint get (k : string) (props : list (string * value)) : value :=
  match props with
  | [] => Undefined
  | (k', v) :: rest => if String.eqb k k' then v else get k rest
  end.

Definition of_option (o : option string) : value :=
  match o with
  | Some s => Str s
  | None => Undefined
  end.

End Json.

(** ** Values of the sandbox context and the host heap *)

(** A JavaScript value as far as the handler builds or passes one: an object
    literal, a reference to an object that lives in the host heap (and is
    shared with whoever else holds the reference), or something opaque such
    as an instantiated WebAssembly module or a built-in. *)
Inductive Val :=
| VObj (fields : list (string * Val))
| VRef (l : positive)
| VOpaque (tag : string).

(** The host heap: objects with string-valued properties, such as the
    object behind [process.env]. *)
Abbreviation Heap := (gmap positive (gmap string string)).

(** A global object: the bindings visible to the code that runs in it. *)
Abbreviation Context := (gmap string Val).

(** [obj.k] on an object literal. *)
Fixpoint field (k : string) (fields : list (string * Val)) : option Val :=
  match fields with
  | [] => None
  | (k', v) :: rest => if String.eqb k k' then Some v else field k rest
  end.

(** ** Errors, outcomes and the trace of effects *)

Record Error := mkError { message : string; stack : option string }.

Module Esbuild.

Inductive Plugin := EdgeWasmPlugin.

Record BuildOptions := {
  platform : string;
  target : string;
  sourcemap : string;
  legalComments : string;
  bundle : bool;
  plugins : list Plugin;
  entryPoints : list string;
  write : bool;
  format : string
}.

Record OutputFile := { text : string }.

Record BuildResult := { outputFiles : option (list OutputFile) }.

End Esbuild.

(** The wasm imports the plugin recorded: identifier and file. *)
Abbreviation WasmAssets := (list (string * string)).

Module Edge.

(** [new EdgeRuntime({ initialCode, extend })], with [context] the global
    object that [extend] returned. *)
Record EdgeRuntime := { initialCode : string; context : Context }.

(** What [runServer] resolves to. *)
Record Server := { url : string; runtime : EdgeRuntime }.

End Edge.

Module NodeFetch.

Record RequestInit := {
  redirect : string;
  method : string;
  body : option string
}.

(** [response.headers]: [get name] and [raw ()]. *)
Record Headers := {
  get : string -> option string;
  raw : list (string * list string)
}.

(** [text] is what [await response.text()] gives. *)
Record Response := {
  status : Z;
  headers : Headers;
  text : Error + string
}.

End NodeFetch.

Module Http.

Inductive HeaderValue :=
| Single (v : string)
| Multi (vs : list string).

(** [stream] is what draining the request body gives. *)
Record IncomingMessage := {
  url : option string;
  method : option string;
  headers : list (string * HeaderValue);
  stream : Error + list byte
}.

End Http.

(** [VercelProxyResponse] *)
Record ProxyResponse := {
  statusCode : Z;
  headers : list (string * list string);
  body : string;
  encoding : string
}.

Inductive Event :=
| EsbuildBuild (options : Esbuild.BuildOptions)
| WasmGetContext (assets : WasmAssets)
| NewEdgeRuntime (rt : Edge.EdgeRuntime)
| RunServer (rt : Edge.EdgeRuntime)
| ExitHook (server : Edge.Server)
| ConsoleError (line : string)
| ConsoleLog (line : string)
| Fetch (url : string) (init : NodeFetch.RequestInit).

(** How a call ends: it returns, it throws (a rejected promise), or the
    process exits. *)
Inductive Outcome (A : Type) :=
| Returned (a : A)
| Thrown (e : Error)
| Exited (code : Z).

Arguments Returned {A} a.
Arguments Thrown {A} e.
Arguments Exited {A} code.

(** A computation: the events it performed, in order, and how it ended. *)
Definition Eff (A : Type) : Type := list Event * Outcome A.

#[global] Instance Eff_ret : MRet Eff := fun A a => ([], Returned a).

#[global] Instance Eff_bind : MBind Eff := fun A B f m =>
  match m with
  | (t, Returned a) => let '(t', o) := f a in ((t ++ t')%list, o)
  | (t, Thrown e) => (t, Thrown e)
  | (t, Exited c) => (t, Exited c)
  end.

Definition emit (e : Event) : Eff unit := ([e], Returned tt).

Definition throw {A : Type} (e : Error) : Eff A := ([], Thrown e).

(** [process.exit(code)] *)
Definition process_exit {A : Type} (code : Z) : Eff A := ([], Exited code).

(** Awaiting a collaborator: its rejection is thrown here. *)
Definition await {A : Type} (r : Error + A) : Eff A :=
  match r with
  | inl e => throw e
  | inr a => mret a
  end.

(** [try { body } catch (error) { handler error }]: a process exit is not
    an exception. *)
Definition try_catch {A : Type} (body : Eff A) (handler : Error -> Eff A)
  : Eff A :=
  match body with
  | (t, Thrown e) => let '(t', o) := handler e in ((t ++ t')%list, o)
  | other => other
  end.

Definition trace {A : Type} (m : Eff A) : list Event := fst m.
Definition outcome {A : Type} (m : Eff A) : Outcome A := snd m.

(** ** The world around the handler *)

Record World := {
  (** [process.version] *)
  process_version : string;
  (** [process.env]: where the environment object lives in the host heap *)
  process_env : positive;
  (** [readFileSync(`${__dirname}/edge-handler-template.js`)] *)
  read_template : Error + string;
  (** the stack the engine attaches to [new Error(message)] *)
  stack_trace : string -> option string;
  (** [esbuild.build(options)], and the assets its wasm plugin recorded *)
  esbuild_build : Esbuild.BuildOptions
                  -> (Error + Esbuild.BuildResult) * WasmAssets;
  (** [wasmAssets.getContext()] *)
  wasm_getContext : WasmAssets -> Error + Context;
  (** the global object a fresh runtime hands to [extend] *)
  base_context : Context;
  (** the runtime evaluating its initial code in the extended context *)
  evaluate : Edge.EdgeRuntime -> Error + unit;
  (** [runServer({ runtime })]: the URL of the local server *)
  runServer : Edge.EdgeRuntime -> Error + string;
  (** [fetch(url, init)] *)
  fetch : string -> NodeFetch.RequestInit -> Error + NodeFetch.Response
}.

Definition new_Error (w : World) (msg : string) : Error :=
  {| message := msg; stack := stack_trace w msg |}.

(** ** Module initialisation *)

Module NodeVersion.

(** [\d] *)
Definition is_digit (c : ascii) : bool :=
  let n := N_of_ascii c in (48 <=? n)%N && (n <=? 57)%N.

(** The longest run of digits at the head of [s], and what follows. *)
Fixpoint span_digits (s : string) : string * string :=
  match s with
  | EmptyString => (EmptyString, EmptyString)
  | String c s' =>
      if is_digit c
      then let '(ds, rest) := span_digits s' in (String c ds, rest)
      else (EmptyString, s)
  end.

(** [version.match(/^v(\d+)\.\d+/)?.[1]]: the first group, when the
    pattern matches at the start of [version]. *)
Definition match_major (version : string) : option string :=
  match version with
  | String "v" r =>
      match span_digits r with
      | (String d ds, String "." (String m _)) =>
          if is_digit m then Some (String d ds) else None
      | _ => None
      end
  | _ => None
  end.

(** A run of one or more digits. *)
Fixpoint digits (s : string) : bool :=
  match s with
  | EmptyString => false
  | String c EmptyString => is_digit c
  | String c s' => is_digit c && digits s'
  end.

(** The pattern [^v(\d+)\.\d+] read as a language: [version] starts with
    [v], the digits [major], a dot and the digits [minor]. *)
Definition matches (version major : string) : Prop :=
  exists minor rest,
    digits major = true /\ digits minor = true /\
    version = "v" +:+ major +:+ "." +:+ minor +:+ rest.

End NodeVersion.

(** What the module holds once it is loaded. *)
Record Module := {
  NODE_VERSION_IDENTIFIER : string;
  edgeHandlerTemplate : string
}.

(** Template-literal rendering of [NODE_VERSION_MAJOR]. *)
Definition render_major (major : option string) : string :=
  match major with
  | Some m => m
  | None => "undefined"
  end.

(** The top-level statements of the module, in order. *)
Definition load_module (w : World) : Error + Module :=
  let NODE_VERSION_MAJOR := NodeVersion.match_major (process_version w) in
  let NODE_VERSION_IDENTIFIER := "node" +:+ render_major NODE_VERSION_MAJOR in
  (* [!NODE_VERSION_MAJOR]: the group holds at least one digit, so it is
     never the empty string *)
  match NODE_VERSION_MAJOR with
  | None =>
      inl (new_Error w
             ("Unable to determine current node version: process.version="
              +:+ process_version w))
  | Some _ =>
      match read_template w with
      | inl e => inl e
      | inr edgeHandlerTemplate =>
          inr {| NODE_VERSION_IDENTIFIER := NODE_VERSION_IDENTIFIER;
                 edgeHandlerTemplate := edgeHandlerTemplate |}
      end
  end.

(** ** [serializeRequest] *)

Definition header_value (v : Http.HeaderValue) : Json.value :=
  match v with
  | Http.Single s => Json.Str s
  | Http.Multi vs => Json.Arr (List.map Json.Str vs)
  end.

Definition headers_object (hs : list (string * Http.HeaderValue))
  : Json.value :=
  Json.Obj (List.map (fun h => (fst h, header_value (snd h))) hs).

(** The object literal handed to [JSON.stringify]. *)
Definition request_object (message : Http.IncomingMessage) (body : string)
  : list (string * Json.value) :=
  [ ("url", Json.of_option (Http.url message));
    ("method", Json.of_option (Http.method message));
    ("headers", headers_object (Http.headers message));
    ("body", Json.Str body) ].

Definition streamToBuffer (message : Http.IncomingMessage)
  : Eff (list byte) :=
  await (Http.stream message).

Definition serializeRequest (message : Http.IncomingMessage)
  : Eff (option string) :=
  bodyBuffer ← streamToBuffer message;
  let body := Base64.encode bodyBuffer in
  mret (Json.stringify (Json.Obj (request_object message body))).

(** ** [compileUserCode] *)

Record CompiledProgram := {
  userCode : string;
  wasmAssets : WasmAssets
}.

(** Modelled from the spec: [createEdgeWasmPlugin] (./edge-wasm-plugin) is
    not part of this file. It creates a fresh asset plugin scoped to one
    compilation; the plugin records the binary-module imports it meets
    while the bundler runs, which the build oracle of the [World] reports
    next to the build result. *)
Definition createEdgeWasmPlugin : Esbuild.Plugin := Esbuild.EdgeWasmPlugin.

(** Modelled from the spec: [logError] (../utils) is not part of this file.
    It logs the message of the error and nothing of its stack. *)
Definition logError (error : Error) : Eff unit :=
  emit (ConsoleError (message error)).

Definition nl : string := String "010" EmptyString.
Definition dq : string := String "034" EmptyString.

Definition build_options (m : Module) (entrypointFullPath : string)
  : Esbuild.BuildOptions :=
  {| Esbuild.platform := "browser";
     Esbuild.target := NODE_VERSION_IDENTIFIER m;
     Esbuild.sourcemap := "inline";
     Esbuild.legalComments := "none";
     Esbuild.bundle := true;
     Esbuild.plugins := [createEdgeWasmPlugin];
     Esbuild.entryPoints := [entrypointFullPath];
     Esbuild.write := false;
     Esbuild.format := "cjs" |}.

(** The template literal of [userCode], hole by hole. *)
Definition wrap_user_code (m : Module) (bundle entrypointRelativePath : string)
  (isMiddleware : bool) : string :=
  nl +:+ "      // strict mode" +:+ nl
  +:+ "      " +:+ dq +:+ "use strict" +:+ dq +:+ ";var regeneratorRuntime;"
  +:+ nl +:+ nl
  +:+ "      // user code" +:+ nl
  +:+ "      " +:+ bundle +:+ ";" +:+ nl +:+ nl
  +:+ "      // request metadata" +:+ nl
  +:+ "      const IS_MIDDLEWARE = " +:+ JsString.of_bool isMiddleware +:+ ";"
  +:+ nl
  +:+ "      const ENTRYPOINT_LABEL = '" +:+ entrypointRelativePath +:+ "';"
  +:+ nl +:+ nl
  +:+ "      // edge handler" +:+ nl
  +:+ "      " +:+ edgeHandlerTemplate m +:+ nl
  +:+ "    ".

(** [result.outputFiles?.[0]] *)
Definition first_output (result : Esbuild.BuildResult)
  : option Esbuild.OutputFile :=
  match Esbuild.outputFiles result with
  | Some (compiledFile :: _) => Some compiledFile
  | _ => None
  end.

Definition compileUserCode (m : Module) (w : World)
  (entrypointFullPath entrypointRelativePath : string) (isMiddleware : bool)
  : Eff (option CompiledProgram) :=
  let options := build_options m entrypointFullPath in
  let run := esbuild_build w options in
  let wasmAssets := snd run in
  try_catch
    (emit (EsbuildBuild options);;
     result ← await (fst run);
     match first_output result with
     | Some compiledFile =>
         let userCode :=
           wrap_user_code m (Esbuild.text compiledFile)
             entrypointRelativePath isMiddleware in
         mret (Some {| userCode := userCode; wasmAssets := wasmAssets |})
     | None =>
         throw (new_Error w
                  ("Compilation of " +:+ entrypointRelativePath
                   +:+ " produced no output files."))
     end)
    (fun error =>
       emit (ConsoleError "Failed to compile user code for edge runtime.");;
       logError error;;
       mret None).

(** The build of an entrypoint fails: the bundler rejects, or it resolves
    without a first output file. *)
Definition build_fails (w : World) (options : Esbuild.BuildOptions) : Prop :=
  match fst (esbuild_build w options) with
  | inl _ => True
  | inr result => first_output result = None
  end.

(** What a failed compilation leaves on the console. *)
Definition failure_log (msg : string) : list Event :=
  [ConsoleError "Failed to compile user code for edge runtime.";
   ConsoleError msg].

(** ** [createEdgeRuntime] *)

(** The [extend] callback:
    [Object.assign(context, { module: {}, process: { env: process.env },
    ...wasmBindings })]. Later properties of the literal win over earlier
    ones, and the literal wins over what [context] already had. The value of
    [process.env] is the reference to the host's environment object. *)
Definition extend (w : World) (wasmBindings : Context) (context : Context)
  : Context :=
  (wasmBindings
     ∪ <["process" := VObj [("env", VRef (process_env w))]]>
         (<["module" := VObj []]> ∅))
    ∪ context.

Definition createEdgeRuntime (w : World) (params : option CompiledProgram)
  : Eff (option Edge.Server) :=
  try_catch
    (match params with
     | None => mret None
     | Some params =>
         emit (WasmGetContext (wasmAssets params));;
         wasmBindings ← await (wasm_getContext w (wasmAssets params));
         let edgeRuntime :=
           {| Edge.initialCode := userCode params;
              Edge.context := extend w wasmBindings (base_context w) |} in
         emit (NewEdgeRuntime edgeRuntime);;
         await (evaluate w edgeRuntime);;
         emit (RunServer edgeRuntime);;
         url ← await (runServer w edgeRuntime);
         let server := {| Edge.url := url; Edge.runtime := edgeRuntime |} in
         emit (ExitHook server);;
         mret (Some server)
     end)
    (fun error =>
       emit (ConsoleError "Failed to instantiate edge runtime.");;
       logError error;;
       mret None).

(** ** [createEdgeEventHandler] *)

(** The closure that [createEdgeEventHandler] returns: what it captured. *)
Record Handler := {
  server : option Edge.Server;
  entrypointRelativePath : string
}.

Definition createEdgeEventHandler (m : Module) (w : World)
  (entrypointFullPath entrypointRelativePath : string) (isMiddleware : bool)
  : Eff Handler :=
  userCode ← compileUserCode m w entrypointFullPath entrypointRelativePath
               isMiddleware;
  server ← createEdgeRuntime w userCode;
  mret {| server := server;
          entrypointRelativePath := entrypointRelativePath |}.

Definition failure_header : string := "x-vercel-failed".
Definition failure_signal : string := "edge-wrapper".

(** [response.headers.get('x-vercel-failed') === 'edge-wrapper'] *)
Definition isUserError (response : NodeFetch.Response) : bool :=
  bool_decide (NodeFetch.get (NodeFetch.headers response) failure_header
               = Some failure_signal).

Definition fetch_init (payload : option string) : NodeFetch.RequestInit :=
  {| NodeFetch.redirect := "manual";
     NodeFetch.method := "post";
     NodeFetch.body := payload |}.

(** The line logged for a fatal user error. *)
Definition fatal_log_line (entrypointRelativePath body : string) : string :=
  let fakeStackTrace := "    at (" +:+ entrypointRelativePath +:+ ")" in
  let urlPath := extractUrlPath entrypointRelativePath in
  "Error from API Route " +:+ urlPath +:+ ": " +:+ body +:+ nl
  +:+ fakeStackTrace.

(** The body of the returned [async function (request)]. *)
Definition handle (w : World) (h : Handler) (request : Http.IncomingMessage)
  : Eff ProxyResponse :=
  match server h with
  | None => process_exit 1
  | Some server =>
      payload ← serializeRequest request;
      emit (Fetch (Edge.url server) (fetch_init payload));;
      response ← await (fetch w (Edge.url server) (fetch_init payload));
      body ← await (NodeFetch.text response);
      if isUserError response && (500 <=? NodeFetch.status response)%Z
      then
        emit (ConsoleLog (fatal_log_line (entrypointRelativePath h) body));;
        process_exit 1
      else
        mret {| statusCode := NodeFetch.status response;
                headers := NodeFetch.raw (NodeFetch.headers response);
                body := body;
                encoding := "utf8" |}
  end.

(** ** The environment as the sandbox sees it *)

Module Sandbox.

(** The object that [process.env] denotes for code running in [ctx]. *)
Definition env_object (ctx : Context) : option positive :=
  match ctx !! "process" with
  | Some (VObj fields) =>
      match field "env" fields with
      | Some (VRef l) => Some l
      | _ => None
      end
  | _ => None
  end.

(** [process.env] read inside the sandbox, against the heap of the
    moment. *)
Definition env (ctx : Context) (heap : Heap) : option (gmap string string) :=
  l ← env_object ctx; heap !! l.

(** [process.env[k] = v] executed inside the sandbox. *)
Definition setenv (ctx : Context) (k v : string) (heap : Heap) : Heap :=
  match env_object ctx with
  | Some l => alter (insert k v) l heap
  | None => heap
  end.

End Sandbox.

Module Host.

(** [process.env] read by the host. *)
Definition env (w : World) (heap : Heap) : option (gmap string string) :=
  heap !! process_env w.

(** [process.env[k] = v] executed by the host. *)
Definition setenv (w : World) (k v : string) (heap : Heap) : Heap :=
  alter (insert k v) (process_env w) heap.

End Host.

(** ** The environment held apart from the host: the two properties a
    snapshot would have *)

(** The sandbox of [srv] does not see what the host writes to its
    environment after the sandbox started. *)
Definition env_unaffected_by_host (w : World) (srv : Edge.Server)
  (heap : Heap) (k v : string) : Prop :=
  let ctx := Edge.context (Edge.runtime srv) in
  Sandbox.env ctx (Host.setenv w k v heap) = Sandbox.env ctx heap.

(** The host does not see what the sandbox of [srv] writes through the
    injected object. *)
Definition env_read_only (w : World) (srv : Edge.Server)
  (heap : Heap) (k v : string) : Prop :=
  let ctx := Edge.context (Edge.runtime srv) in
  Host.env w (Sandbox.setenv ctx k v heap) = Host.env w heap.

(** ** Classifying events *)

Definition is_fetch (ev : Event) : bool :=
  match ev with
  | Fetch _ _ => true
  | _ => false
  end.

(** The events that create or use a sandbox. *)
Definition is_sandbox_event (ev : Event) : bool :=
  match ev with
  | WasmGetContext _ | NewEdgeRuntime _ | RunServer _ | ExitHook _
  | Fetch _ _ => true
  | _ => false
  end.

Definition is_build (ev : Event) : bool :=
  match ev with
  | EsbuildBuild _ => true
  | _ => false
  end.

(** ** A small world to run the handler in *)

Module Demo.

(** Headers whose [get] looks a name up in the raw map and joins its
    values. *)
Definition headers_of (raw : list (string * list string))
  : NodeFetch.Headers :=
  {| NodeFetch.get := fun name =>
       JsString.join ", " <$> (snd <$> List.find (fun p => String.eqb (fst p) name) raw);
     NodeFetch.raw := raw |}.

Definition response (status : Z) (raw : list (string * list string))
  (text : string) : NodeFetch.Response :=
  {| NodeFetch.status := status;
     NodeFetch.headers := headers_of raw;
     NodeFetch.text := inr text |}.

Definition world (version : string)
  (build : (Error + Esbuild.BuildResult) * WasmAssets)
  (respond : string -> NodeFetch.RequestInit -> Error + NodeFetch.Response)
  : World :=
  {| process_version := version;
     process_env := 1%positive;
     read_template := inr "addEventListener('fetch', onFetch);";
     stack_trace := fun _ => None;
     esbuild_build := fun _ => build;
     wasm_getContext := fun _ => inr ∅;
     base_context := ∅;
     evaluate := fun _ => inr tt;
     runServer := fun _ => inr "http://127.0.0.1:3000/";
     fetch := respond |}.

Definition bundle (text : string)
  : (Error + Esbuild.BuildResult) * WasmAssets :=
  (inr {| Esbuild.outputFiles := Some [ {| Esbuild.text := text |} ] |}, []).

Definition no_output : (Error + Esbuild.BuildResult) * WasmAssets :=
  (inr {| Esbuild.outputFiles := Some [] |}, []).

Definition build_error (msg : string)
  : (Error + Esbuild.BuildResult) * WasmAssets :=
  (inl {| message := msg; stack := Some ("Error: " +:+ msg) |}, []).

Definition edge_module : Module :=
  {| NODE_VERSION_IDENTIFIER := "node18";
     edgeHandlerTemplate := "addEventListener('fetch', onFetch);" |}.

Definition edge_server : Edge.Server :=
  {| Edge.url := "http://127.0.0.1:3000/";
     Edge.runtime := {| Edge.initialCode := ""; Edge.context := ∅ |} |}.

Definition running (rel : string) : Handler :=
  {| server := Some edge_server; entrypointRelativePath := rel |}.

(** GET /api/hello with an empty body *)
Definition get_hello : Http.IncomingMessage :=
  {| Http.url := Some "/api/hello";
     Http.method := Some "GET";
     Http.headers := [("host", Http.Single "localhost:3000")];
     Http.stream := inr [] |}.

(** POST /api/echo with the body [Hi!] *)
Definition post_echo : Http.IncomingMessage :=
  {| Http.url := Some "/api/echo";
     Http.method := Some "POST";
     Http.headers := [("host", Http.Single "localhost:3000");
                      ("set-cookie", Http.Multi ["a=1"; "b=2"])];
     Http.stream := inr [Byte.x48; Byte.x69; Byte.x21] |}.

(** A host whose environment holds one variable. *)
Definition heap : Heap := {[ 1%positive := {[ "API_KEY" := "old" ]} ]}.

Definition program : CompiledProgram :=
  {| userCode := "module.exports = f"; wasmAssets := [] |}.

Definition quiet : World :=
  world "v18.12.1" (bundle "module.exports = f")
    (fun _ _ => inr (response 200 [] "")).

(** The server that [createEdgeRuntime quiet (Some program)] starts. *)
Definition started : Edge.Server :=
  {| Edge.url := "http://127.0.0.1:3000/";
     Edge.runtime :=
       {| Edge.initialCode := "module.exports = f";
          Edge.context := extend quiet ∅ ∅ |} |}.

End Demo.

(** ** A sandbox that echoes *)

Module Echo.

(** The characters before the first double quote. *)
Fixpoint until_quote (cs : list ascii) : list ascii :=
  match cs with
  | [] => []
  | c :: cs' => if Ascii.eqb c Json.dquote then [] else c :: until_quote cs'
  end.

(** The last member of a payload, read from its end: the payload closes
    with a string literal and a brace, and the literal holds no escape.
    This is how the echoing sandbox finds the [body] member, which
    [serializeRequest] writes last. *)
Definition body_of_payload (payload : string) : option string :=
  match rev (list_ascii_of_string payload) with
  | c1 :: c2 :: cs =>
      if Ascii.eqb c1 "}" && Ascii.eqb c2 Json.dquote
      then Some (string_of_list_ascii (rev (until_quote cs)))
      else None
  | _ => None
  end.

(** The bytes the sandbox decodes from a posted payload. *)
Definition decoded_body (init : NodeFetch.RequestInit)
  : option (list byte) :=
  payload ← NodeFetch.body init;
  encoded ← body_of_payload payload;
  Base64.decode encoded.

(** The sandbox: it answers 200 with the decoded body as its body, which
    the client reads as text through [utf8]. *)
Definition respond (utf8 : list byte -> string)
  (raw : list (string * list string))
  (url : string) (init : NodeFetch.RequestInit)
  : Error + NodeFetch.Response :=
  match decoded_body init with
  | Some bytes => inr (Demo.response 200 raw (utf8 bytes))
  | None => inl {| message := "malformed payload"; stack := None |}
  end.

Definition world (utf8 : list byte -> string)
  (raw : list (string * list string)) : World :=
  Demo.world "v18.12.1" (Demo.bundle "module.exports = echo")
    (respond utf8 raw).

End Echo.

(** ** Starting the sandbox, step by step *)

Definition is_exit_hook (ev : Event) : bool :=
  match ev with
  | ExitHook _ => true
  | _ => false
  end.

(** The runtime [createEdgeRuntime] constructs for a program once the
    bindings of its assets are resolved. *)
Definition runtime_of (w : World) (program : CompiledProgram)
  (wasmBindings : Context) : Edge.EdgeRuntime :=
  {| Edge.initialCode := userCode program;
     Edge.context := extend w wasmBindings (base_context w) |}.

(** What the [catch] of [createEdgeRuntime] leaves on the console. *)
Definition startup_log (error : Error) : list Event :=
  ConsoleError "Failed to instantiate edge runtime."
    :: trace (logError error).

(** The sandbox of a program does not start: resolving the assets,
    evaluating the initial code or starting the server fails. *)
Definition startup_fails (w : World) (program : CompiledProgram) : Prop :=
  match wasm_getContext w (wasmAssets program) with
  | inl _ => True
  | inr wasmBindings =>
      match evaluate w (runtime_of w program wasmBindings) with
      | inl _ => True
      | inr _ =>
          match runServer w (runtime_of w program wasmBindings) with
          | inl _ => True
          | inr _ => False
          end
      end
  end.

(** ** Worlds in which a collaborator fails *)

Module Faulty.

Definition oops (msg : string) : Error :=
  {| message := msg; stack := Some ("Error: " +:+ msg) |}.

(** [wasmAssets.getContext()] rejects. *)
Definition no_bindings (msg : string) : World :=
  {| process_version := process_version Demo.quiet;
     process_env := process_env Demo.quiet;
     read_template := read_template Demo.quiet;
     stack_trace := stack_trace Demo.quiet;
     esbuild_build := esbuild_build Demo.quiet;
     wasm_getContext := fun _ => inl (oops msg);
     base_context := base_context Demo.quiet;
     evaluate := evaluate Demo.quiet;
     runServer := runServer Demo.quiet;
     fetch := fetch Demo.quiet |}.

(** The initial code throws when the runtime evaluates it. *)
Definition bad_code (msg : string) : World :=
  {| process_version := process_version Demo.quiet;
     process_env := process_env Demo.quiet;
     read_template := read_template Demo.quiet;
     stack_trace := stack_trace Demo.quiet;
     esbuild_build := esbuild_build Demo.quiet;
     wasm_getContext := wasm_getContext Demo.quiet;
     base_context := base_context Demo.quiet;
     evaluate := fun _ => inl (oops msg);
     runServer := runServer Demo.quiet;
     fetch := fetch Demo.quiet |}.

(** [runServer] rejects. *)
Definition no_server (msg : string) : World :=
  {| process_version := process_version Demo.quiet;
     process_env := process_env Demo.quiet;
     read_template := read_template Demo.quiet;
     stack_trace := stack_trace Demo.quiet;
     esbuild_build := esbuild_build Demo.quiet;
     wasm_getContext := wasm_getContext Demo.quiet;
     base_context := base_context Demo.quiet;
     evaluate := evaluate Demo.quiet;
     runServer := fun _ => inl (oops msg);
     fetch := fetch Demo.quiet |}.

(** The harness template cannot be read. *)
Definition no_template (msg : string) : World :=
  {| process_version := process_version Demo.quiet;
     process_env := process_env Demo.quiet;
     read_template := inl (oops msg);
     stack_trace := stack_trace Demo.quiet;
     esbuild_build := esbuild_build Demo.quiet;
     wasm_getContext := wasm_getContext Demo.quiet;
     base_context := base_context Demo.quiet;
     evaluate := evaluate Demo.quiet;
     runServer := runServer Demo.quiet;
     fetch := fetch Demo.quiet |}.

(** The sandbox is unreachable: [fetch] rejects. *)
Definition unreachable (msg : string) : World :=
  Demo.world "v18.12.1" (Demo.bundle "module.exports = f")
    (fun _ _ => inl (oops msg)).

(** The sandbox answers, but its body cannot be read. *)
Definition truncated (status : Z) (raw : list (string * list string))
  (msg : string) : World :=
  Demo.world "v18.12.1" (Demo.bundle "module.exports = f")
    (fun _ _ =>
       inr {| NodeFetch.status := status;
              NodeFetch.headers := Demo.headers_of raw;
              NodeFetch.text := inl (oops msg) |}).

(** A request whose body stream fails. *)
Definition aborted (msg : string) : Http.IncomingMessage :=
  {| Http.url := Some "/api/upload";
     Http.method := Some "POST";
     Http.headers := [];
     Http.stream := inl (oops msg) |}.

End Faulty.

(** ** Reading the two declarations of the script *)

Module JsLiteral.

Definition squote : ascii := "'".
Definition backslash : ascii := "092".
Definition LF : ascii := "010".
Definition CR : ascii := "013".

Definition is_line_terminator (c : ascii) : bool :=
  Ascii.eqb c LF || Ascii.eqb c CR.



(** The character that [\c] denotes, for the single-character escapes. *)
Definition single_escape (c : ascii) : option ascii :=
  if Ascii.eqb c "'" then Some squote
  else if Ascii.eqb c "034" then Some "034"%char
  else if Ascii.eqb c backslash then Some backslash
  else if Ascii.eqb c "b" then Some "008"%char
  else if Ascii.eqb c "f" then Some "012"%char
  else if Ascii.eqb c "n" then Some "010"%char
  else if Ascii.eqb c "r" then Some "013"%char
  else if Ascii.eqb c "t" then Some "009"%char
  else if Ascii.eqb c "v" then Some "011"%char
  else None.

(** After a backslash, a character that starts an escape this reader does
    not cover: [\x..], [\u....], a digit, a line continuation. *)
Definition is_long_escape (c : ascii) : bool :=
  Ascii.eqb c "x" || Ascii.eqb c "u" || NodeVersion.is_digit c
  || is_line_terminator c.

Definition prepend (c : ascii) (r : option (string * string))
  : option (string * string) :=
  match r with
  | Some (v, rest) => Some (String c v, rest)
  | None => None
  end.

(** The text after the opening quote of a single-quoted string literal:
    the string it denotes and what follows its closing quote. [None]: the
    literal is not closed before the line ends, or it uses an escape that
    is not covered. *)
Fixpoint read_body (s : string) : option (string * string) :=
  match s with
  | EmptyString => None
  | String c s' =>
      if Ascii.eqb c squote then Some (EmptyString, s')
      else if is_line_terminator c then None
      else if Ascii.eqb c backslash then
        match s' with
        | EmptyString => None
        | String e s'' =>
            match single_escape e with
            | Some v => prepend v (read_body s'')
            | None =>
                if is_long_escape e then None
                else prepend e (read_body s'')
            end
        end
      else prepend c (read_body s')
  end.

(** A single-quoted string literal at the head of [s]. *)
Definition read_string (s : string) : option (string * string) :=
  match s with
  | String c s' => if Ascii.eqb c squote then read_body s' else None
  | EmptyString => None
  end.


End JsLiteral.






(** ** Reading a JSON string back *)

Module JsonReader.

(** The value of a hexadecimal digit. *)
Definition hex_value (c : ascii) : option N :=
  let n := N_of_ascii c in
  if (48 <=? n)%N && (n <=? 57)%N then Some (n - 48)%N
  else if (97 <=? n)%N && (n <=? 102)%N then Some (n - 87)%N
  else if (65 <=? n)%N && (n <=? 70)%N then Some (n - 55)%N
  else None.

(** The character that [\c] denotes in a JSON string, for the
    two-character escapes. *)
Definition unescape (c : ascii) : option ascii :=
  if Ascii.eqb c Json.dquote then Some Json.dquote
  else if Ascii.eqb c Json.backslash then Some Json.backslash
  else if Ascii.eqb c "/" then Some "/"%char
  else if Ascii.eqb c "b" then Some "008"%char
  else if Ascii.eqb c "f" then Some "012"%char
  else if Ascii.eqb c "n" then Some "010"%char
  else if Ascii.eqb c "r" then Some "013"%char
  else if Ascii.eqb c "t" then Some "009"%char
  else None.

(** The text after the opening quote of a JSON string: the string it
    denotes and what follows its closing quote. A raw control character is
    refused, as JSON refuses it; of the [\uXXXX] escapes only those below
    128 are read, which are one character here. *)
Fixpoint read_body (s : string) : option (string * string) :=
  match s with
  | EmptyString => None
  | String c s' =>
      if Ascii.eqb c Json.dquote then Some (EmptyString, s')
      else if Ascii.eqb c Json.backslash then
        match s' with
        | String "u" (String h1 (String h2 (String h3 (String h4 s'')))) =>
            match hex_value h1, hex_value h2, hex_value h3, hex_value h4 with
            | Some a, Some b, Some c, Some d =>
                let n := (((a * 16 + b) * 16 + c) * 16 + d)%N in
                if (n <? 128)%N
                then JsLiteral.prepend (ascii_of_N n) (read_body s'')
                else None
            | _, _, _, _ => None
            end
        | String e s'' =>
            match unescape e with
            | Some v => JsLiteral.prepend v (read_body s'')
            | None => None
            end
        | EmptyString => None
        end
      else if (N_of_ascii c <? 32)%N then None
      else JsLiteral.prepend c (read_body s')
  end.

(** A JSON string at the head of [s]. *)
Definition read_string (s : string) : option (string * string) :=
  match s with
  | String c s' => if Ascii.eqb c Json.dquote then read_body s' else None
  | EmptyString => None
  end.

End JsonReader.

(** ** A request that needs escapes *)

Module Notes.

(** [text] with every backquote turned into a double quote: a way to write
    JSON text down. *)
Fixpoint requote (text : string) : string :=
  match text with
  | EmptyString => EmptyString
  | String c text' =>
      String (if Ascii.eqb c "`" then Json.dquote else c) (requote text')
  end.

Definition tab : string := String "009" EmptyString.

(** POST /api/notes?q="a b" with a header that holds quotes, a backslash, a
    tab and a line feed, a header with two values, and the body [Hi] *)
Definition post_note : Http.IncomingMessage :=
  {| Http.url := Some (requote "/api/notes?q=`a b`");
     Http.method := Some "POST";
     Http.headers :=
       [("x-note", Http.Single (requote "say `hi`\now" +:+ tab +:+ nl));
        ("accept", Http.Multi ["text/plain"; "*/*"])];
     Http.stream := inr [Byte.x48; Byte.x69] |}.

(** A message without url and without method, with no header and an empty
    body *)
Definition bare : Http.IncomingMessage :=
  {| Http.url := None;
     Http.method := None;
     Http.headers := [];
     Http.stream := inr [] |}.

End Notes.

(** * Properties *)

#[local] Arguments Json.stringify : simpl never.
#[local] Arguments Base64.encode : simpl never.
#[local] Arguments fatal_log_line : simpl never.
#[local] Arguments wrap_user_code : simpl never.
#[local] Arguments build_options : simpl never.
#[local] Arguments fetch_init : simpl never.
#[local] Arguments extend : simpl never.


Section SplitJoin.

Variable sep : ascii.

Lemma split_nonempty (s : string) : JsString.split sep s <> [].
Proof.
  destruct s as [|c s]; simpl; [discriminate|].
  destruct (Ascii.eqb c sep); [discriminate|].
  destruct (JsString.split sep s); discriminate.
Qed.

Lemma split_free (s : string) :
  JsString.free_of sep s = true -> JsString.split sep s = [s].
Proof.
  induction s as [|c s IH]; simpl; [reflexivity|].
  intros H. apply andb_prop in H as [Hc Hs].
  apply negb_true_iff in Hc. rewrite Hc, (IH Hs). reflexivity.
Qed.

Lemma split_app (p t : string) :
  JsString.split sep (p +:+ String sep t)
  = (JsString.split sep p ++ JsString.split sep t)%list.
Proof.
  induction p as [|c p IH]; simpl.
  - rewrite Ascii.eqb_refl. reflexivity.
  - destruct (Ascii.eqb c sep); simpl.
    + f_equal. exact IH.
    + change (p ++ String sep t)%string with (p +:+ String sep t).
      rewrite IH.
      pose proof (split_nonempty p) as Hne.
      destruct (JsString.split sep p); [contradiction|reflexivity].
Qed.

Lemma join_cons (d p : string) (ps : list string) :
  ps <> [] -> JsString.join d (p :: ps) = p +:+ d +:+ JsString.join d ps.
Proof. destruct ps; [contradiction|reflexivity]. Qed.

Lemma join_split (s : string) :
  JsString.join (JsString.of_char sep) (JsString.split sep s) = s.
Proof.
  induction s as [|c s IH]; [reflexivity|].
  pose proof (split_nonempty s) as Hne.
  cbn [JsString.split].
  destruct (Ascii.eqb c sep) eqn:E.
  - apply Ascii.eqb_eq in E. subst c.
    rewrite (join_cons _ _ _ Hne), IH. reflexivity.
  - destruct (JsString.split sep s) as [|q qs]; [contradiction|].
    rewrite <- IH. destruct qs; reflexivity.
Qed.

End SplitJoin.

(** The array [split "." (p ++ "." ++ t)] has at least two parts. *)
Lemma split_app_length (sep : ascii) (p t : string) :
  Nat.eqb (List.length (JsString.split sep (p +:+ String sep t))) 1 = false.
Proof.
  rewrite split_app, length_app.
  pose proof (split_nonempty sep p) as Hp.
  pose proof (split_nonempty sep t) as Ht.
  destruct (JsString.split sep p); [contradiction|].
  destruct (JsString.split sep t); [contradiction|].
  simpl. apply Nat.eqb_neq. lia.
Qed.

(** C5: route-label derivation strips the final dot-delimited suffix
    ([p ++ "." ++ t] with no dot in [t] maps to [p]) and returns a path
    without any dot unchanged; in particular "api/some.func.js" maps to
    "api/some.func", "api/plain" to "api/plain" and "a.b.c" to "a.b". *)
Theorem extractUrlPath_strips_final_suffix :
  (forall p t : string,
      JsString.free_of "." t = true ->
      extractUrlPath (p +:+ "." +:+ t) = p) /\
  (forall s : string,
      JsString.free_of "." s = true -> extractUrlPath s = s) /\
  extractUrlPath "api/some.func.js" = "api/some.func" /\
  extractUrlPath "api/plain" = "api/plain" /\
  extractUrlPath "a.b.c" = "a.b".
Proof.
  split; [|split; [|repeat split; reflexivity]].
  - intros p t Ht. unfold extractUrlPath.
    change ("." +:+ t) with (String "." t).
    rewrite split_app_length, split_app, (split_free _ _ Ht).
    unfold JsString.pop. rewrite removelast_last.
    apply (join_split "." p).
  - intros s Hs. unfold extractUrlPath.
    rewrite (split_free _ _ Hs). reflexivity.
Qed.

Lemma extractUrlPath_strips_final_suffix_witness :
  extractUrlPath ("api/some.func" +:+ "." +:+ "js") = "api/some.func" /\
  extractUrlPath "api/plain" = "api/plain".
Proof.
  split.
  - apply (proj1 extractUrlPath_strips_final_suffix). reflexivity.
  - apply (proj1 (proj2 extractUrlPath_strips_final_suffix)). reflexivity.
Defined.

(** ** Requests through a running sandbox *)

Lemma Forall_not_fetch_nil : Forall (fun ev => is_fetch ev = false) [].
Proof. constructor. Qed.

Section Proxy.

Variables (w : World) (h : Handler) (srv : Edge.Server).
Variables (request : Http.IncomingMessage) (B : list byte).
Variables (response : NodeFetch.Response) (text : string).

(** The payload posted for [request] once its body drained to [B]. *)
Let payload : option string :=
  Json.stringify (Json.Obj (request_object request (Base64.encode B))).

Hypothesis running : server h = Some srv.
Hypothesis drained : Http.stream request = inr B.

Lemma handle_posts :
  exists rest o,
    handle w h request
    = (Fetch (Edge.url srv) (fetch_init payload) :: rest, o)
    /\ Forall (fun ev => is_fetch ev = false) rest.
Proof.
  unfold handle, serializeRequest, streamToBuffer.
  rewrite running, drained. cbn.
  fold payload.
  destruct (fetch w (Edge.url srv) (fetch_init payload)) as [e|r]; cbn.
  - exists [], (Thrown e). split; [reflexivity|constructor].
  - destruct (NodeFetch.text r) as [e|b]; cbn.
    + exists [], (Thrown e). split; [reflexivity|constructor].
    + destruct (isUserError r && (500 <=? NodeFetch.status r)%Z); cbn.
      * eexists _, _. split; [reflexivity|].
        repeat constructor.
      * eexists _, _. split; [reflexivity|constructor].
Qed.

Hypothesis answered :
  fetch w (Edge.url srv) (fetch_init payload) = inr response.
Hypothesis read : NodeFetch.text response = inr text.

Lemma handle_answered :
  handle w h request
  = if isUserError response && (500 <=? NodeFetch.status response)%Z
    then ([Fetch (Edge.url srv) (fetch_init payload);
           ConsoleLog (fatal_log_line (entrypointRelativePath h) text)],
          Exited 1%Z)
    else ([Fetch (Edge.url srv) (fetch_init payload)],
          Returned {| statusCode := NodeFetch.status response;
                      headers := NodeFetch.raw (NodeFetch.headers response);
                      body := text;
                      encoding := "utf8" |}).
Proof.
  unfold handle, serializeRequest, streamToBuffer.
  rewrite running, drained. cbn.
  fold payload. rewrite answered. cbn. rewrite read. cbn.
  destruct (isUserError response && (500 <=? NodeFetch.status response)%Z);
    reflexivity.
Qed.

(** C1: through a running sandbox, a response that carries the header
    [x-vercel-failed: edge-wrapper] with a status of 500 or more makes
    [handle] log one line, made of the route label, the response body and
    a one-frame stack trace naming the entrypoint's relative path, and
    exit the process with code 1; with the same header and a status below
    500 nothing is logged and the response is returned. *)
Theorem fatal_user_error_exits :
  NodeFetch.get (NodeFetch.headers response) "x-vercel-failed"
  = Some "edge-wrapper" ->
  ((500 <= NodeFetch.status response)%Z ->
   handle w h request
   = ([Fetch (Edge.url srv) (fetch_init payload);
       ConsoleLog
         ("Error from API Route "
          +:+ extractUrlPath (entrypointRelativePath h) +:+ ": " +:+ text
          +:+ nl +:+ "    at (" +:+ entrypointRelativePath h +:+ ")")],
      Exited 1%Z))
  /\
  ((NodeFetch.status response < 500)%Z ->
   handle w h request
   = ([Fetch (Edge.url srv) (fetch_init payload)],
      Returned {| statusCode := NodeFetch.status response;
                  headers := NodeFetch.raw (NodeFetch.headers response);
                  body := text;
                  encoding := "utf8" |})).
Proof.
  intros Hsignal. rewrite handle_answered.
  assert (isUserError response = true) as ->.
  { unfold isUserError. apply bool_decide_eq_true. exact Hsignal. }
  split; intros Hstatus.
  - apply Z.leb_le in Hstatus. rewrite Hstatus. reflexivity.
  - apply Z.leb_gt in Hstatus. rewrite Hstatus. reflexivity.
Qed.

(** C6: a response that is not a fatal user error (not both the failure
    header and a status of 500 or more) is returned as it is: its status,
    its raw multi-value headers, its body text and the encoding "utf8";
    nothing is logged and the process does not exit. *)
Theorem non_fatal_response_passes_through :
  ~ (NodeFetch.get (NodeFetch.headers response) "x-vercel-failed"
     = Some "edge-wrapper"
     /\ (500 <= NodeFetch.status response)%Z) ->
  handle w h request
  = ([Fetch (Edge.url srv) (fetch_init payload)],
     Returned {| statusCode := NodeFetch.status response;
                 headers := NodeFetch.raw (NodeFetch.headers response);
                 body := text;
                 encoding := "utf8" |}).
Proof.
  intros Hnot. rewrite handle_answered.
  destruct (isUserError response && (500 <=? NodeFetch.status response)%Z)
    eqn:E; [|reflexivity].
  exfalso. apply Hnot.
  apply andb_prop in E as [Hu Hs]. split.
  - unfold isUserError in Hu. apply bool_decide_eq_true in Hu. exact Hu.
  - apply Z.leb_le. exact Hs.
Qed.

End Proxy.

Lemma fatal_user_error_exits_witness :
  let failed status :=
    Demo.response status [("x-vercel-failed", ["edge-wrapper"])] "boom" in
  let w status := Demo.world "v18.12.1" (Demo.bundle "") (fun _ _ => inr (failed status)) in
  let post :=
    Fetch "http://127.0.0.1:3000/"
      (fetch_init
         (Json.stringify
            (Json.Obj (request_object Demo.get_hello (Base64.encode []))))) in
  handle (w 500%Z) (Demo.running "api/some.func.js") Demo.get_hello
  = ([post;
      ConsoleLog
        ("Error from API Route api/some.func: boom" +:+ nl
         +:+ "    at (api/some.func.js)")],
     Exited 1%Z)
  /\ handle (w 200%Z) (Demo.running "api/some.func.js") Demo.get_hello
     = ([post],
        Returned {| statusCode := 200;
                    headers := [("x-vercel-failed", ["edge-wrapper"])];
                    body := "boom";
                    encoding := "utf8" |}).
Proof.
  intros failed w post. split.
  - apply (proj1 (fatal_user_error_exits (w 500%Z)
                    (Demo.running "api/some.func.js") Demo.edge_server
                    Demo.get_hello [] (failed 500%Z) "boom"
                    eq_refl eq_refl eq_refl eq_refl eq_refl)).
    simpl. lia.
  - apply (proj2 (fatal_user_error_exits (w 200%Z)
                    (Demo.running "api/some.func.js") Demo.edge_server
                    Demo.get_hello [] (failed 200%Z) "boom"
                    eq_refl eq_refl eq_refl eq_refl eq_refl)).
    simpl. lia.
Defined.

Lemma non_fatal_response_passes_through_witness :
  let missing := Demo.response 404 [("content-type", ["text/plain"])] "" in
  let w := Demo.world "v18.12.1" (Demo.bundle "") (fun _ _ => inr missing) in
  handle w (Demo.running "api/hello.js") Demo.get_hello
  = ([Fetch "http://127.0.0.1:3000/"
        (fetch_init
           (Json.stringify
              (Json.Obj (request_object Demo.get_hello (Base64.encode [])))))],
     Returned {| statusCode := 404;
                 headers := [("content-type", ["text/plain"])];
                 body := "";
                 encoding := "utf8" |}).
Proof.
  intros missing w.
  apply (non_fatal_response_passes_through w (Demo.running "api/hello.js")
           Demo.edge_server Demo.get_hello [] missing ""
           eq_refl eq_refl eq_refl eq_refl).
  intros [Hsignal _]. vm_compute in Hsignal. discriminate Hsignal.
Defined.

(** C8: the request to the sandbox is one POST to the server's URL with
    [redirect: 'manual'], and no other fetch follows it; a response with a
    3xx status is therefore handed back as it came: its status and its raw
    headers appear verbatim in the returned response. *)
Theorem redirects_not_followed :
  (forall (w : World) (h : Handler) (srv : Edge.Server)
          (request : Http.IncomingMessage) (B : list byte),
      server h = Some srv ->
      Http.stream request = inr B ->
      exists rest,
        trace (handle w h request)
        = Fetch (Edge.url srv)
            {| NodeFetch.redirect := "manual";
               NodeFetch.method := "post";
               NodeFetch.body :=
                 Json.stringify
                   (Json.Obj (request_object request (Base64.encode B))) |}
          :: rest
        /\ Forall (fun ev => is_fetch ev = false) rest)
  /\
  (forall (w : World) (h : Handler) (srv : Edge.Server)
          (request : Http.IncomingMessage) (B : list byte)
          (response : NodeFetch.Response) (text : string),
      server h = Some srv ->
      Http.stream request = inr B ->
      fetch w (Edge.url srv)
        (fetch_init
           (Json.stringify
              (Json.Obj (request_object request (Base64.encode B)))))
      = inr response ->
      NodeFetch.text response = inr text ->
      (300 <= NodeFetch.status response < 400)%Z ->
      handle w h request
      = ([Fetch (Edge.url srv)
            (fetch_init
               (Json.stringify
                  (Json.Obj (request_object request (Base64.encode B)))))],
         Returned {| statusCode := NodeFetch.status response;
                     headers := NodeFetch.raw (NodeFetch.headers response);
                     body := text;
                     encoding := "utf8" |})).
Proof.
  split.
  - intros w h srv request B Hrun Hdrain.
    destruct (handle_posts w h srv request B Hrun Hdrain)
      as (rest & o & Heq & Hrest).
    exists rest. rewrite Heq. split; [reflexivity|exact Hrest].
  - intros w h srv request B response text Hrun Hdrain Hans Hread Hstatus.
    rewrite (handle_answered w h srv request B response text
               Hrun Hdrain Hans Hread).
    replace (500 <=? NodeFetch.status response)%Z with false
      by (symmetry; apply Z.leb_gt; lia).
    rewrite andb_false_r. reflexivity.
Qed.

Lemma redirects_not_followed_witness :
  let moved :=
    Demo.response 302 [("location", ["https://example.com/login"])] "" in
  let w := Demo.world "v18.12.1" (Demo.bundle "") (fun _ _ => inr moved) in
  (exists rest,
      trace (handle w (Demo.running "middleware.js") Demo.get_hello)
      = Fetch "http://127.0.0.1:3000/"
          {| NodeFetch.redirect := "manual";
             NodeFetch.method := "post";
             NodeFetch.body :=
               Json.stringify
                 (Json.Obj
                    (request_object Demo.get_hello (Base64.encode []))) |}
        :: rest
      /\ Forall (fun ev => is_fetch ev = false) rest)
  /\ outcome (handle w (Demo.running "middleware.js") Demo.get_hello)
     = Returned {| statusCode := 302;
                   headers := [("location", ["https://example.com/login"])];
                   body := "";
                   encoding := "utf8" |}.
Proof.
  intros moved w. split.
  - apply (proj1 redirects_not_followed w (Demo.running "middleware.js")
             Demo.edge_server Demo.get_hello [] eq_refl eq_refl).
  - rewrite (proj2 redirects_not_followed w (Demo.running "middleware.js")
               Demo.edge_server Demo.get_hello [] moved ""
               eq_refl eq_refl eq_refl eq_refl);
      [reflexivity | simpl; lia].
Defined.

(** ** Compilation *)

Section Compile.

Variables (m : Module) (w : World).
Variables (entrypointFullPath relativePath : string) (isMiddleware : bool).

Let options := build_options m entrypointFullPath.
Let run := esbuild_build w options.

(** [compileUserCode], case by case on what the bundler did. *)
Lemma compileUserCode_cases :
  compileUserCode m w entrypointFullPath relativePath isMiddleware
  = match fst run with
    | inl e =>
        (EsbuildBuild options :: failure_log (message e), Returned None)
    | inr result =>
        match first_output result with
        | Some compiledFile =>
            ([EsbuildBuild options],
             Returned
               (Some {| userCode :=
                          wrap_user_code m (Esbuild.text compiledFile)
                            relativePath isMiddleware;
                        wasmAssets := snd run |}))
        | None =>
            (EsbuildBuild options
               :: failure_log ("Compilation of " +:+ relativePath
                               +:+ " produced no output files."),
             Returned None)
        end
    end.
Proof.
  unfold compileUserCode. fold options. fold run.
  destruct (fst run) as [e|result]; cbn; [reflexivity|].
  destruct (first_output result); reflexivity.
Qed.

Lemma compileUserCode_fails :
  build_fails w options ->
  exists msg,
    compileUserCode m w entrypointFullPath relativePath isMiddleware
    = (EsbuildBuild options :: failure_log msg, Returned None).
Proof.
  unfold build_fails. fold run. intros Hfail.
  rewrite compileUserCode_cases.
  destruct (fst run) as [e|result].
  - exists (message e). reflexivity.
  - rewrite Hfail. eexists. reflexivity.
Qed.

End Compile.

(** Without a program no sandbox is started: nothing happens at all. *)
Lemma createEdgeRuntime_absent (w : World) :
  createEdgeRuntime w None = ([], Returned None).
Proof. reflexivity. Qed.

(** A handler without a server exits on whatever request it is given. *)
Lemma handle_unavailable (w : World) (rel : string)
  (request : Http.IncomingMessage) :
  handle w {| server := None; entrypointRelativePath := rel |} request
  = ([], Exited 1%Z).
Proof. reflexivity. Qed.

(** C2: when the build of the entrypoint fails, [compileUserCode] returns no
    program; [createEdgeRuntime] given no program returns no server and
    performs nothing; creating the handler performs no sandbox event (no
    asset resolution, no runtime, no server, no exit hook, no fetch) and
    returns, without exiting, a handler that has no server; and that handler
    exits the process with code 1 on any request, without posting it. *)
Theorem failed_compilation_exits_on_first_request :
  forall (m : Module) (w : World) (full rel : string) (isMiddleware : bool),
    build_fails w (build_options m full) ->
    outcome (compileUserCode m w full rel isMiddleware) = Returned None
    /\ createEdgeRuntime w None = ([], Returned None)
    /\ Forall (fun ev => is_sandbox_event ev = false)
         (trace (createEdgeEventHandler m w full rel isMiddleware))
    /\ exists h,
         outcome (createEdgeEventHandler m w full rel isMiddleware)
         = Returned h
         /\ server h = None
         /\ forall (w' : World) (request : Http.IncomingMessage),
              handle w' h request = ([], Exited 1%Z).
Proof.
  intros m w full rel isMiddleware Hfail.
  destruct (compileUserCode_fails m w full rel isMiddleware Hfail)
    as [msg Hcompile].
  unfold createEdgeEventHandler. rewrite Hcompile. cbn.
  repeat split.
  - repeat constructor.
  - eexists. split; [reflexivity|]. split; [reflexivity|].
    intros w' request. apply handle_unavailable.
Qed.

Lemma failed_compilation_exits_on_first_request_witness :
  let w := Demo.world "v18.12.1" (Demo.build_error "Could not resolve ./x")
             (fun _ _ => inr (Demo.response 200 [] "never reached")) in
  createEdgeEventHandler Demo.edge_module w "/repo/api/hello.js"
    "api/hello.js" false
  = ([EsbuildBuild (build_options Demo.edge_module "/repo/api/hello.js");
      ConsoleError "Failed to compile user code for edge runtime.";
      ConsoleError "Could not resolve ./x"],
     Returned {| server := None; entrypointRelativePath := "api/hello.js" |})
  /\ exists h,
       outcome (createEdgeEventHandler Demo.edge_module w
                  "/repo/api/hello.js" "api/hello.js" false)
       = Returned h
       /\ server h = None
       /\ forall (w' : World) (request : Http.IncomingMessage),
            handle w' h request = ([], Exited 1%Z).
Proof.
  intros w. split; [reflexivity|].
  apply (failed_compilation_exits_on_first_request Demo.edge_module w
           "/repo/api/hello.js" "api/hello.js" false).
  exact I.
Defined.

(** C7: [compileUserCode] never throws and never exits: it always returns.
    When the bundler rejects with an error, and when it resolves without a
    first output file (which raises an error whose message names the
    relative path), the error is caught: the console receives the fixed
    line and the message of the error, nothing of its stack, and the result
    is the absent program. *)
Theorem compile_catches_build_errors :
  forall (m : Module) (w : World) (full rel : string) (isMiddleware : bool),
    (exists program,
        outcome (compileUserCode m w full rel isMiddleware)
        = Returned program)
    /\ (forall e,
           fst (esbuild_build w (build_options m full)) = inl e ->
           compileUserCode m w full rel isMiddleware
           = ([EsbuildBuild (build_options m full);
               ConsoleError "Failed to compile user code for edge runtime.";
               ConsoleError (message e)],
              Returned None))
    /\ (forall result,
           fst (esbuild_build w (build_options m full)) = inr result ->
           Esbuild.outputFiles result = None
           \/ Esbuild.outputFiles result = Some [] ->
           compileUserCode m w full rel isMiddleware
           = ([EsbuildBuild (build_options m full);
               ConsoleError "Failed to compile user code for edge runtime.";
               ConsoleError
                 ("Compilation of " +:+ rel +:+ " produced no output files.")],
              Returned None)).
Proof.
  intros m w full rel isMiddleware. rewrite compileUserCode_cases.
  split; [|split].
  - destruct (fst (esbuild_build w (build_options m full))) as [e|result].
    + eexists. reflexivity.
    + destruct (first_output result); eexists; reflexivity.
  - intros e ->. reflexivity.
  - intros result -> Hnone.
    assert (first_output result = None) as ->; [|reflexivity].
    unfold first_output. destruct Hnone as [-> | ->]; reflexivity.
Qed.

Lemma compile_catches_build_errors_witness :
  compileUserCode Demo.edge_module
    (Demo.world "v18.12.1" (Demo.build_error "Unexpected token")
       (fun _ _ => inr (Demo.response 200 [] "")))
    "/repo/api/a.js" "api/a.js" false
  = ([EsbuildBuild (build_options Demo.edge_module "/repo/api/a.js");
      ConsoleError "Failed to compile user code for edge runtime.";
      ConsoleError "Unexpected token"],
     Returned None)
  /\ compileUserCode Demo.edge_module
       (Demo.world "v18.12.1" Demo.no_output
          (fun _ _ => inr (Demo.response 200 [] "")))
       "/repo/api/a.js" "api/a.js" false
     = ([EsbuildBuild (build_options Demo.edge_module "/repo/api/a.js");
         ConsoleError "Failed to compile user code for edge runtime.";
         ConsoleError "Compilation of api/a.js produced no output files."],
        Returned None).
Proof.
  split.
  - apply (proj1 (proj2 (compile_catches_build_errors Demo.edge_module _
                           "/repo/api/a.js" "api/a.js" false))
             {| message := "Unexpected token";
                stack := Some "Error: Unexpected token" |}).
    reflexivity.
  - apply (proj2 (proj2 (compile_catches_build_errors Demo.edge_module _
                           "/repo/api/a.js" "api/a.js" false))
             {| Esbuild.outputFiles := Some [] |}).
    + reflexivity.
    + right. reflexivity.
Defined.

(** ** The node version probe *)

Section VersionPattern.

Import NodeVersion.

Lemma digits_cons (c : ascii) (s : string) :
  digits (String c s) = true ->
  is_digit c = true /\ (s = EmptyString \/ digits s = true).
Proof.
  simpl. destruct s as [|d s].
  - intros H. split; [exact H|left; reflexivity].
  - intros H. apply andb_prop in H as [Hc Hs].
    split; [exact Hc|right; exact Hs].
Qed.

Lemma digits_intro (c : ascii) (s : string) :
  is_digit c = true -> s = EmptyString \/ digits s = true ->
  digits (String c s) = true.
Proof.
  intros Hc [-> | Hs]; simpl; [exact Hc|].
  destruct s; [discriminate Hs|]. rewrite Hc. exact Hs.
Qed.

(** What [span_digits] cuts off is a run of digits, and nothing is lost. *)
Lemma span_digits_sound (s ds rest : string) :
  span_digits s = (ds, rest) ->
  s = ds +:+ rest /\ (ds = EmptyString \/ digits ds = true).
Proof.
  revert ds rest. induction s as [|c s IH]; intros ds rest; simpl.
  - intros [= <- <-]. split; [reflexivity|left; reflexivity].
  - destruct (is_digit c) eqn:Hc.
    + destruct (span_digits s) as [ds' rest'] eqn:Hspan.
      intros [= <- <-].
      destruct (IH ds' rest' eq_refl) as [Heq Hds].
      split; [rewrite Heq; reflexivity|].
      right. apply digits_intro; assumption.
    + intros [= <- <-]. split; [reflexivity|left; reflexivity].
Qed.

(** A run of digits followed by something that is not a digit is cut
    exactly there. *)
Lemma span_digits_complete (major : string) (c : ascii) (rest : string) :
  major = EmptyString \/ digits major = true ->
  is_digit c = false ->
  span_digits (major +:+ String c rest) = (major, String c rest).
Proof.
  intros Hmajor Hc. induction major as [|d major IH].
  - simpl. rewrite Hc. reflexivity.
  - destruct Hmajor as [Hmajor | Hmajor]; [discriminate Hmajor|].
    apply digits_cons in Hmajor as [Hd Hrest].
    change (String d major +:+ String c rest)
      with (String d (major +:+ String c rest)).
    cbn [span_digits]. rewrite Hd, (IH Hrest). reflexivity.
Qed.

(** The matcher computes the first group of the pattern. *)
Lemma match_major_matches (version major : string) :
  match_major version = Some major <-> matches version major.
Proof.
  split.
  - unfold match_major.
    destruct version as [|v r]; [discriminate|].
    destruct (Ascii.eqb v "v") eqn:Hv.
    2:{ intros H. exfalso. apply Ascii.eqb_neq in Hv. apply Hv.
        destruct v as [[] [] [] [] [] [] [] []]; try discriminate H.
        reflexivity. }
    apply Ascii.eqb_eq in Hv. subst v.
    destruct (span_digits r) as [ds rest] eqn:Hspan.
    apply span_digits_sound in Hspan as [-> Hds].
    destruct ds as [|d ds]; [discriminate|].
    destruct Hds as [Hds | Hds]; [discriminate Hds|].
    destruct rest as [|dot rest]; [discriminate|].
    destruct (Ascii.eqb dot ".") eqn:Hdot.
    2:{ intros H. exfalso. apply Ascii.eqb_neq in Hdot. apply Hdot.
        destruct dot as [[] [] [] [] [] [] [] []]; try discriminate H.
        reflexivity. }
    apply Ascii.eqb_eq in Hdot. subst dot.
    destruct rest as [|n rest]; [discriminate|].
    destruct (is_digit n) eqn:Hn; [|discriminate].
    intros [= <-].
    exists (String n EmptyString), rest.
    split; [exact Hds|]. split; [exact Hn|]. reflexivity.
  - intros (minor & rest & Hmajor & Hminor & ->).
    destruct minor as [|n minor]; [discriminate Hminor|].
    apply digits_cons in Hminor as [Hn _].
    change ("v" +:+ major +:+ "." +:+ String n minor +:+ rest)
      with (String "v" (major +:+ String "." (String n (minor +:+ rest)))).
    unfold match_major.
    rewrite (span_digits_complete major "." _ (or_intror Hmajor) eq_refl).
    destruct major as [|d major]; [discriminate Hmajor|].
    rewrite Hn. reflexivity.
Qed.

Lemma match_major_none (version : string) :
  (forall major, ~ matches version major) -> match_major version = None.
Proof.
  intros Hno. destruct (match_major version) as [major|] eqn:E;
    [|reflexivity].
  exfalso. apply (Hno major). apply match_major_matches. exact E.
Qed.

End VersionPattern.

(** C10: when [process.version] does not match [^v(\d+)\.\d+], loading the
    module throws the error "Unable to determine current node version" and
    yields no module, so no handler can be created from it; when it matches
    with first group [major] and the harness template is read, the module
    loads with the identifier ["node" ++ major], and every compilation made
    with that module performs exactly one build, whose [target] is that
    identifier; no module that loads has another identifier. *)
Theorem node_version_target :
  (forall w : World,
      (forall major, ~ NodeVersion.matches (process_version w) major) ->
      load_module w
      = inl (new_Error w
               ("Unable to determine current node version: process.version="
                +:+ process_version w)))
  /\
  (forall (w : World) (major template : string),
      NodeVersion.matches (process_version w) major ->
      read_template w = inr template ->
      let m := {| NODE_VERSION_IDENTIFIER := "node" +:+ major;
                  edgeHandlerTemplate := template |} in
      load_module w = inr m
      /\ forall (w' : World) (full rel : string) (isMiddleware : bool),
           exists rest,
             trace (compileUserCode m w' full rel isMiddleware)
             = EsbuildBuild
                 {| Esbuild.platform := "browser";
                    Esbuild.target := "node" +:+ major;
                    Esbuild.sourcemap := "inline";
                    Esbuild.legalComments := "none";
                    Esbuild.bundle := true;
                    Esbuild.plugins := [createEdgeWasmPlugin];
                    Esbuild.entryPoints := [full];
                    Esbuild.write := false;
                    Esbuild.format := "cjs" |}
               :: rest
             /\ Forall (fun ev => is_build ev = false) rest)
  /\
  (forall (w : World) (major : string) (m : Module),
      NodeVersion.matches (process_version w) major ->
      load_module w = inr m ->
      NODE_VERSION_IDENTIFIER m = "node" +:+ major
      /\ forall (w' : World) (full rel : string) (isMiddleware : bool),
           exists options rest,
             trace (compileUserCode m w' full rel isMiddleware)
             = EsbuildBuild options :: rest
             /\ Esbuild.target options = "node" +:+ major
             /\ Forall (fun ev => is_build ev = false) rest).
Proof.
  assert (forall (m : Module) (w' : World) (full rel : string)
                 (isMiddleware : bool),
             exists rest,
               trace (compileUserCode m w' full rel isMiddleware)
               = EsbuildBuild (build_options m full) :: rest
               /\ Forall (fun ev => is_build ev = false) rest) as Hbuild.
  { intros m w' full rel isMiddleware. rewrite compileUserCode_cases.
    destruct (fst (esbuild_build w' _)) as [e|result];
      [|destruct (first_output result)];
      eexists; (split; [reflexivity|]); repeat constructor. }
  split; [|split].
  - intros w Hno. unfold load_module.
    rewrite (match_major_none _ Hno). reflexivity.
  - intros w major template Hmatch Hread m.
    apply match_major_matches in Hmatch. split.
    + unfold load_module. rewrite Hmatch, Hread. reflexivity.
    + intros w' full rel isMiddleware.
      exact (Hbuild m w' full rel isMiddleware).
  - intros w major m Hmatch Hload.
    apply match_major_matches in Hmatch.
    unfold load_module in Hload. rewrite Hmatch in Hload.
    destruct (read_template w) as [e|template]; [discriminate Hload|].
    injection Hload as <-. split; [reflexivity|].
    intros w' full rel isMiddleware.
    destruct (Hbuild {| NODE_VERSION_IDENTIFIER := "node" +:+ major;
                        edgeHandlerTemplate := template |}
                w' full rel isMiddleware) as (rest & Htrace & Hrest).
    eexists _, rest. split; [exact Htrace|]. split; [reflexivity|exact Hrest].
Qed.

Lemma node_version_target_witness :
  let w version :=
    Demo.world version (Demo.bundle "module.exports = f")
      (fun _ _ => inr (Demo.response 200 [] "")) in
  load_module (w "18.12.1")
  = inl {| message :=
             "Unable to determine current node version: process.version=18.12.1";
           stack := None |}
  /\ load_module (w "v18.12.1")
     = inr {| NODE_VERSION_IDENTIFIER := "node18";
              edgeHandlerTemplate := "addEventListener('fetch', onFetch);" |}
  /\ (exists rest,
         trace (compileUserCode
                  {| NODE_VERSION_IDENTIFIER := "node18";
                     edgeHandlerTemplate :=
                       "addEventListener('fetch', onFetch);" |}
                  (w "v18.12.1") "/repo/api/x.js" "api/x.js" false)
         = EsbuildBuild
             {| Esbuild.platform := "browser";
                Esbuild.target := "node18";
                Esbuild.sourcemap := "inline";
                Esbuild.legalComments := "none";
                Esbuild.bundle := true;
                Esbuild.plugins := [createEdgeWasmPlugin];
                Esbuild.entryPoints := ["/repo/api/x.js"];
                Esbuild.write := false;
                Esbuild.format := "cjs" |}
           :: rest
         /\ Forall (fun ev => is_build ev = false) rest)
  /\ forall m,
       load_module (w "v18.12.1") = inr m ->
       NODE_VERSION_IDENTIFIER m = "node18".
Proof.
  intros w.
  assert (NodeVersion.matches "v18.12.1" "18") as Hmatch.
  { exists "12", ".1". repeat split; reflexivity. }
  split; [|split; [|split]].
  - apply (proj1 node_version_target (w "18.12.1")).
    intros major H. apply match_major_matches in H. discriminate H.
  - apply (proj1 (proj2 node_version_target) (w "v18.12.1") "18"
             "addEventListener('fetch', onFetch);" Hmatch eq_refl).
  - apply (proj2 (proj1 (proj2 node_version_target) (w "v18.12.1") "18"
                    "addEventListener('fetch', onFetch);" Hmatch eq_refl)
             (w "v18.12.1") "/repo/api/x.js" "api/x.js" false).
  - intros m Hload.
    apply (proj2 (proj2 node_version_target) (w "v18.12.1") "18" m Hmatch
             Hload).
Defined.

(** ** The environment of the sandbox *)

Section Environment.

Variables (w : World) (program : CompiledProgram) (srv : Edge.Server).

Hypothesis started :
  outcome (createEdgeRuntime w (Some program)) = Returned (Some srv).

(** A sandbox that started was built from the resolved bindings. *)
Lemma started_context :
  exists wasmBindings,
    wasm_getContext w (wasmAssets program) = inr wasmBindings
    /\ Edge.context (Edge.runtime srv)
       = extend w wasmBindings (base_context w).
Proof.
  revert started. unfold createEdgeRuntime.
  destruct (wasm_getContext w (wasmAssets program)) as [e|wasmBindings];
    cbn; [discriminate|].
  destruct (evaluate w _) as [e|[]]; cbn; [discriminate|].
  destruct (runServer w _) as [e|url]; cbn; [discriminate|].
  intros [= <-]. exists wasmBindings. split; reflexivity.
Qed.

End Environment.

Lemma extend_process (w : World) (wasmBindings context : Context) :
  wasmBindings !! "process" = None ->
  extend w wasmBindings context !! "process"
  = Some (VObj [("env", VRef (process_env w))]).
Proof.
  intros Hfree. unfold extend.
  apply lookup_union_Some_l.
  rewrite lookup_union_r by exact Hfree.
  apply lookup_insert_eq.
Qed.

(** C9, as the code has it: the [process] object injected into the sandbox
    has the single property [env], and that property is the host's own
    environment object, not a copy. Provided no wasm binding is itself
    named [process], a sandbox that started reads, at any moment, exactly
    the environment the host has at that moment, all of it; what the host
    writes after the start is seen inside, and what the sandbox writes
    through the injected object is written to the host's environment. *)
Theorem sandbox_env_is_host_env :
  forall (w : World) (program : CompiledProgram) (srv : Edge.Server),
    outcome (createEdgeRuntime w (Some program)) = Returned (Some srv) ->
    (forall wasmBindings,
        wasm_getContext w (wasmAssets program) = inr wasmBindings ->
        wasmBindings !! "process" = None) ->
    let ctx := Edge.context (Edge.runtime srv) in
    ctx !! "process" = Some (VObj [("env", VRef (process_env w))])
    /\ (forall heap : Heap, Sandbox.env ctx heap = Host.env w heap)
    /\ (forall (heap : Heap) (k v : string),
           Sandbox.env ctx (Host.setenv w k v heap)
           = insert k v <$> Host.env w heap)
    /\ (forall (heap : Heap) (k v : string),
           Host.env w (Sandbox.setenv ctx k v heap)
           = insert k v <$> Host.env w heap).
Proof.
  intros w program srv Hstart Hfree ctx.
  destruct (started_context w program srv Hstart) as (wb & Hwb & Hctx).
  assert (ctx !! "process" = Some (VObj [("env", VRef (process_env w))]))
    as Hprocess.
  { subst ctx. rewrite Hctx. apply extend_process, Hfree, Hwb. }
  assert (Sandbox.env_object ctx = Some (process_env w)) as Hobj.
  { unfold Sandbox.env_object. rewrite Hprocess. reflexivity. }
  assert (forall heap : Heap, Sandbox.env ctx heap = Host.env w heap)
    as Hsame.
  { intros heap. unfold Sandbox.env. rewrite Hobj. reflexivity. }
  split; [exact Hprocess|]. split; [exact Hsame|]. split.
  - intros heap k v. rewrite Hsame. unfold Host.env, Host.setenv.
    apply lookup_alter_eq.
  - intros heap k v. unfold Sandbox.setenv. rewrite Hobj.
    unfold Host.env. apply lookup_alter_eq.
Qed.

Lemma sandbox_env_is_host_env_witness :
  let ctx := Edge.context (Edge.runtime Demo.started) in
  ctx !! "process" = Some (VObj [("env", VRef 1%positive)])
  /\ (forall heap : Heap, Sandbox.env ctx heap = Host.env Demo.quiet heap)
  /\ (forall (heap : Heap) (k v : string),
         Sandbox.env ctx (Host.setenv Demo.quiet k v heap)
         = insert k v <$> Host.env Demo.quiet heap)
  /\ (forall (heap : Heap) (k v : string),
         Host.env Demo.quiet (Sandbox.setenv ctx k v heap)
         = insert k v <$> Host.env Demo.quiet heap).
Proof.
  apply (sandbox_env_is_host_env Demo.quiet Demo.program Demo.started).
  - reflexivity.
  - intros wasmBindings [= <-]. reflexivity.
Defined.

(** The environment in the sandbox is not a snapshot and not read-only: the
    sandbox of [Demo.started] sees the host overwrite [API_KEY] after it
    started, and the host sees the sandbox overwrite it. *)
Lemma env_snapshot_counterexample :
  outcome (createEdgeRuntime Demo.quiet (Some Demo.program))
  = Returned (Some Demo.started)
  /\ ~ env_unaffected_by_host Demo.quiet Demo.started Demo.heap
         "API_KEY" "new"
  /\ ~ env_read_only Demo.quiet Demo.started Demo.heap "API_KEY" "leaked".
Proof.
  split; [reflexivity|]. split.
  - unfold env_unaffected_by_host. intros Heq.
    apply (f_equal (fun env => env ≫= (.!! "API_KEY"))) in Heq.
    vm_compute in Heq. discriminate Heq.
  - unfold env_read_only. intros Heq.
    apply (f_equal (fun env => env ≫= (.!! "API_KEY"))) in Heq.
    vm_compute in Heq. discriminate Heq.
Qed.

(** ** Base64 *)

Section Base64Facts.

Import Base64.

#[local] Ltac Zify.zify_post_hook ::= Z.to_euclidean_division_equations.

Lemma value_digit (i : N) : (i < 64)%N -> value (digit i) = Some i.
Proof.
  intros Hi. rewrite <- (N2Nat.id i).
  assert (N.to_nat i < 64)%nat as Hn by lia.
  revert Hn. generalize (N.to_nat i) as n. intros n Hn.
  do 64 (destruct n as [|n]; [reflexivity|]). lia.
Qed.

Lemma value_pad : value pad = None.
Proof. reflexivity. Qed.

Lemma byte_of_to_N (b : byte) : byte_of (Byte.to_N b) = b.
Proof. unfold byte_of. rewrite Byte.of_to_N. reflexivity. Qed.

Lemma to_N_le (b : byte) : (Byte.to_N b <= 255)%N.
Proof. pose proof (Byte.to_N_bounded b). lia. Qed.

(** One full group of three bytes decodes to itself. *)
Lemma group_of_three (x y z : N) :
  (x <= 255)%N -> (y <= 255)%N -> (z <= 255)%N ->
  let s1 := (x / 4)%N in
  let s2 := (x mod 4 * 16 + y / 16)%N in
  let s3 := (y mod 16 * 4 + z / 64)%N in
  let s4 := (z mod 64)%N in
  ((s1 < 64 /\ s2 < 64 /\ s3 < 64 /\ s4 < 64)
   /\ s1 * 4 + s2 / 16 = x
   /\ s2 mod 16 * 16 + s3 / 4 = y
   /\ s3 mod 4 * 64 + s4 = z)%N.
Proof. intros Hx Hy Hz. cbv zeta. repeat split; lia. Qed.

Lemma group_of_two (x y : N) :
  (x <= 255)%N -> (y <= 255)%N ->
  let s1 := (x / 4)%N in
  let s2 := (x mod 4 * 16 + y / 16)%N in
  let s3 := (y mod 16 * 4)%N in
  ((s1 < 64 /\ s2 < 64 /\ s3 < 64)
   /\ s1 * 4 + s2 / 16 = x
   /\ s2 mod 16 * 16 + s3 / 4 = y)%N.
Proof. intros Hx Hy. cbv zeta. repeat split; lia. Qed.

Lemma group_of_one (x : N) :
  (x <= 255)%N ->
  let s1 := (x / 4)%N in
  let s2 := (x mod 4 * 16)%N in
  ((s1 < 64 /\ s2 < 64) /\ s1 * 4 + s2 / 16 = x)%N.
Proof. intros Hx. cbv zeta. repeat split; lia. Qed.

Lemma encode_one (a : byte) :
  encode [a]
  = let x := Byte.to_N a in
    String (digit (x / 4)) (String (digit (x mod 4 * 16))
      (String pad (String pad EmptyString))).
Proof. reflexivity. Qed.

Lemma encode_two (a b : byte) :
  encode [a; b]
  = let x := Byte.to_N a in
    let y := Byte.to_N b in
    String (digit (x / 4)) (String (digit (x mod 4 * 16 + y / 16))
      (String (digit (y mod 16 * 4)) (String pad EmptyString))).
Proof. reflexivity. Qed.

Lemma encode_three (a b c : byte) (rest : list byte) :
  encode (a :: b :: c :: rest)
  = let x := Byte.to_N a in
    let y := Byte.to_N b in
    let z := Byte.to_N c in
    String (digit (x / 4)) (String (digit (x mod 4 * 16 + y / 16))
      (String (digit (y mod 16 * 4 + z / 64)) (String (digit (z mod 64))
        (encode rest)))).
Proof. reflexivity. Qed.

Lemma decode_encode_1 (a : byte) : decode (encode [a]) = Some [a].
Proof.
  pose proof (group_of_one _ (to_N_le a)) as [[H1 H2] Ha].
  rewrite encode_one. cbn [decode].
  rewrite !value_digit, value_pad by assumption.
  cbn. rewrite Ha, byte_of_to_N. reflexivity.
Qed.

Lemma decode_encode_2 (a b : byte) : decode (encode [a; b]) = Some [a; b].
Proof.
  pose proof (group_of_two _ _ (to_N_le a) (to_N_le b))
    as [(H1 & H2 & H3) [Ha Hb]].
  rewrite encode_two. cbn [decode].
  rewrite !value_digit, value_pad by assumption.
  cbn. rewrite Ha, Hb, !byte_of_to_N. reflexivity.
Qed.

Lemma decode_encode_3 (a b c : byte) (rest : list byte) :
  decode (encode rest) = Some rest ->
  decode (encode (a :: b :: c :: rest)) = Some (a :: b :: c :: rest).
Proof.
  intros IH.
  pose proof (group_of_three _ _ _ (to_N_le a) (to_N_le b) (to_N_le c))
    as [(H1 & H2 & H3 & H4) (Ha & Hb & Hc)].
  rewrite encode_three. cbn [decode].
  rewrite !value_digit by assumption.
  rewrite IH, Ha, Hb, Hc, !byte_of_to_N. reflexivity.
Qed.

(** Decoding undoes encoding. *)
Lemma decode_encode (bs : list byte) : decode (encode bs) = Some bs.
Proof.
  enough (decode (encode bs) = Some bs
          /\ (forall a, decode (encode (a :: bs)) = Some (a :: bs))
          /\ (forall a b, decode (encode (a :: b :: bs))
                          = Some (a :: b :: bs))) as [H _]
    by exact H.
  induction bs as [|c bs (IH0 & IH1 & IH2)].
  - split; [reflexivity|]. split.
    + apply decode_encode_1.
    + apply decode_encode_2.
  - split; [exact (IH1 c)|]. split; [intros a; exact (IH2 a c)|].
    intros a b. apply decode_encode_3. exact IH0.
Qed.

End Base64Facts.

(** ** The payload *)

Section Strings.

Lemma append_cons (x : ascii) (a b : string) :
  String x a +:+ b = String x (a +:+ b).
Proof. reflexivity. Qed.

Lemma append_nil (b : string) : EmptyString +:+ b = b.
Proof. reflexivity. Qed.

Lemma string_app_assoc (a b c : string) :
  (a +:+ b) +:+ c = a +:+ (b +:+ c).
Proof.
  induction a as [|x a IH]; [reflexivity|].
  rewrite !append_cons, IH. reflexivity.
Qed.

Lemma chars_app (a b : string) :
  list_ascii_of_string (a +:+ b)
  = (list_ascii_of_string a ++ list_ascii_of_string b)%list.
Proof.
  induction a as [|x a IH]; [reflexivity|].
  rewrite append_cons. cbn [list_ascii_of_string app]. rewrite IH.
  reflexivity.
Qed.

Lemma every_chars (p : ascii -> bool) (s : string) :
  JsString.every p s = true ->
  Forall (fun c => p c = true) (list_ascii_of_string s).
Proof.
  induction s as [|c s IH]; cbn; intros H; constructor;
    apply andb_prop in H as [Hc Hs]; [exact Hc|exact (IH Hs)].
Qed.

End Strings.

Section PayloadText.

Import Base64.

Lemma is_char_digit (i : N) : (i < 64)%N -> is_char (digit i) = true.
Proof. intros Hi. unfold is_char. rewrite (value_digit i Hi). reflexivity. Qed.

Lemma is_char_plain (c : ascii) :
  is_char c = true -> Json.escape c = String c EmptyString.
Proof.
  destruct c as [[] [] [] [] [] [] [] []]; intros H;
    solve [reflexivity | discriminate H].
Qed.

Lemma is_char_not_quote (c : ascii) :
  is_char c = true -> Ascii.eqb c Json.dquote = false.
Proof.
  destruct c as [[] [] [] [] [] [] [] []]; intros H;
    solve [reflexivity | discriminate H].
Qed.

(** [encode] writes characters of the alphabet and padding only. *)
Lemma encode_is_char (bs : list byte) :
  JsString.every is_char (encode bs) = true.
Proof.
  enough (JsString.every is_char (encode bs) = true
          /\ (forall a, JsString.every is_char (encode (a :: bs)) = true)
          /\ (forall a b,
                 JsString.every is_char (encode (a :: b :: bs)) = true))
    as [H _] by exact H.
  induction bs as [|c bs (IH0 & IH1 & IH2)].
  - split; [reflexivity|]. split.
    + intros a.
      pose proof (group_of_one _ (to_N_le a)) as [[H1 H2] _].
      rewrite encode_one. cbn [JsString.every].
      rewrite !is_char_digit by assumption. reflexivity.
    + intros a b.
      pose proof (group_of_two _ _ (to_N_le a) (to_N_le b))
        as [(H1 & H2 & H3) _].
      rewrite encode_two. cbn [JsString.every].
      rewrite !is_char_digit by assumption. reflexivity.
  - split; [exact (IH1 c)|]. split; [intros a; exact (IH2 a c)|].
    intros a b.
    pose proof (group_of_three _ _ _ (to_N_le a) (to_N_le b) (to_N_le c))
      as [(H1 & H2 & H3 & H4) _].
    rewrite encode_three. cbn [JsString.every].
    rewrite !is_char_digit, IH0 by assumption. reflexivity.
Qed.

Lemma escape_all_plain (s : string) :
  JsString.every is_char s = true -> Json.escape_all s = s.
Proof.
  induction s as [|c s IH]; cbn [JsString.every Json.escape_all];
    [reflexivity|].
  intros H. apply andb_prop in H as [Hc Hs].
  rewrite (is_char_plain c Hc), (IH Hs). reflexivity.
Qed.

(** Base64 text needs no escape: it sits between the quotes as it is. *)
Lemma quote_encode (bs : list byte) :
  Json.quote (encode bs)
  = String Json.dquote (encode bs +:+ String Json.dquote EmptyString).
Proof.
  unfold Json.quote. rewrite (escape_all_plain _ (encode_is_char bs)).
  reflexivity.
Qed.

Lemma until_quote_app (cs rest : list ascii) :
  Forall (fun c => is_char c = true) cs ->
  Echo.until_quote (cs ++ Json.dquote :: rest) = cs.
Proof.
  induction 1 as [|c cs Hc _ IH]; cbn.
  - reflexivity.
  - rewrite (is_char_not_quote c Hc), IH. reflexivity.
Qed.

(** A payload that closes with a base64 string is read back. *)
Lemma body_of_payload_closed (pre enc : string) :
  JsString.every is_char enc = true ->
  Echo.body_of_payload
    (pre +:+ String Json.dquote (enc +:+ String Json.dquote "}"))
  = Some enc.
Proof.
  intros Henc. unfold Echo.body_of_payload.
  rewrite chars_app. cbn [list_ascii_of_string].
  rewrite chars_app. cbn [list_ascii_of_string].
  rewrite rev_app_distr. cbn [rev].
  rewrite rev_app_distr. cbn [rev app].
  rewrite <- !app_assoc. cbn [app].
  cbn [Ascii.eqb Bool.eqb andb Json.dquote].
  rewrite until_quote_app.
  - rewrite rev_involutive, string_of_list_ascii_of_string. reflexivity.
  - apply Forall_rev, every_chars, Henc.
Qed.

End PayloadText.

Section RequestPayload.

Variables (request : Http.IncomingMessage) (body : string).

(** A member of an object literal as [JSON.stringify] prints it, if it
    prints it. *)
Let member (k : string) (v : option string) : list string :=
  match v with
  | Some s => [Json.quote k +:+ ":" +:+ Json.quote s]
  | None => []
  end.

Lemma stringify_headers :
  exists headers_text,
    Json.stringify (headers_object (Http.headers request))
    = Some headers_text.
Proof. eexists. reflexivity. Qed.

(** The text of the payload, member by member. *)
Lemma stringify_request (headers_text : string) :
  Json.stringify (headers_object (Http.headers request))
  = Some headers_text ->
  Json.stringify (Json.Obj (request_object request body))
  = Some ("{" +:+ JsString.join ","
            (member "url" (Http.url request)
             ++ member "method" (Http.method request)
             ++ [Json.quote "headers" +:+ ":" +:+ headers_text;
                 Json.quote "body" +:+ ":" +:+ Json.quote body])%list
          +:+ "}").
Proof.
  intros Hheaders. unfold request_object.
  change (Json.stringify (Json.Obj ?props))
    with (Some ("{" +:+ JsString.join ","
                  (omap (fun p : string * Json.value =>
                           let (k, x) := p in
                           (fun r => Json.quote k +:+ ":" +:+ r)
                             <$> Json.stringify x) props)
                +:+ "}")).
  cbn [omap list_omap]. rewrite Hheaders.
  destruct (Http.url request), (Http.method request); reflexivity.
Qed.

End RequestPayload.

Lemma join_snoc (sep x : string) (parts : list string) :
  parts <> [] ->
  JsString.join sep (parts ++ [x]) = JsString.join sep parts +:+ sep +:+ x.
Proof.
  induction parts as [|p parts IH]; [contradiction|]. intros _.
  destruct parts as [|q parts]; [reflexivity|].
  change ((p :: q :: parts) ++ [x])%list with (p :: (q :: parts) ++ [x])%list.
  rewrite !join_cons by (try discriminate; destruct parts; discriminate).
  rewrite IH by discriminate. rewrite !string_app_assoc. reflexivity.
Qed.

Lemma close_shape (members key enc : string) :
  "{" +:+ (members +:+ "," +:+ key +:+ ":"
           +:+ String Json.dquote (enc +:+ String Json.dquote EmptyString))
      +:+ "}"
  = ("{" +:+ members +:+ "," +:+ key +:+ ":")
    +:+ String Json.dquote (enc +:+ String Json.dquote "}").
Proof.
  assert (String Json.dquote (enc +:+ String Json.dquote EmptyString) +:+ "}"
          = String Json.dquote (enc +:+ String Json.dquote "}")) as Hclose.
  { rewrite append_cons, string_app_assoc. reflexivity. }
  rewrite !string_app_assoc, Hclose. reflexivity.
Qed.

(** The payload closes with the body member, whose value is the base64 text
    between two quotes. *)
Lemma payload_closes (request : Http.IncomingMessage) (B : list byte) :
  exists payload pre,
    Json.stringify (Json.Obj (request_object request (Base64.encode B)))
    = Some payload
    /\ payload
       = pre +:+ String Json.dquote
                   (Base64.encode B +:+ String Json.dquote "}").
Proof.
  destruct (stringify_headers request) as [headers_text Hheaders].
  rewrite (stringify_request request _ headers_text Hheaders).
  set (hd := Json.quote "headers" +:+ ":" +:+ headers_text).
  change [hd; ?bd] with ([hd] ++ [bd])%list.
  rewrite !app_assoc.
  rewrite join_snoc
    by (intros H; apply app_eq_nil in H as [_ H]; discriminate H).
  rewrite quote_encode, close_shape.
  eexists. eexists. split; reflexivity.
Qed.

(** The echoing sandbox recovers the bytes of the request body from the
    payload posted for it. *)
Lemma echo_decodes (request : Http.IncomingMessage) (B : list byte) :
  Echo.decoded_body
    (fetch_init
       (Json.stringify
          (Json.Obj (request_object request (Base64.encode B)))))
  = Some B.
Proof.
  destruct (payload_closes request B) as (payload & pre & -> & ->).
  unfold Echo.decoded_body, fetch_init. cbn [NodeFetch.body mbind option_bind].
  rewrite (body_of_payload_closed _ _ (encode_is_char B)).
  cbn [mbind option_bind]. apply decode_encode.
Qed.


(** ** Starting the sandbox *)

#[local] Arguments runtime_of : simpl never.

Section Startup.

Variables (w : World) (program : CompiledProgram).

Let assets := wasmAssets program.

(** [createEdgeRuntime] on a program, case by case on its collaborators. *)
Lemma createEdgeRuntime_cases :
  createEdgeRuntime w (Some program)
  = match wasm_getContext w assets with
    | inl e => (WasmGetContext assets :: startup_log e, Returned None)
    | inr wasmBindings =>
        let rt := runtime_of w program wasmBindings in
        match evaluate w rt with
        | inl e =>
            (WasmGetContext assets :: NewEdgeRuntime rt :: startup_log e,
             Returned None)
        | inr _ =>
            match runServer w rt with
            | inl e =>
                (WasmGetContext assets :: NewEdgeRuntime rt :: RunServer rt
                   :: startup_log e,
                 Returned None)
            | inr url =>
                let srv := {| Edge.url := url; Edge.runtime := rt |} in
                ([WasmGetContext assets; NewEdgeRuntime rt; RunServer rt;
                  ExitHook srv],
                 Returned (Some srv))
            end
        end
    end.
Proof.
  unfold createEdgeRuntime. fold assets.
  destruct (wasm_getContext w assets) as [e|wasmBindings]; cbn.
  { reflexivity. }
  fold (runtime_of w program wasmBindings).
  destruct (evaluate w _) as [e|[]]; cbn.
  { reflexivity. }
  destruct (runServer w _) as [e|url]; cbn.
  { reflexivity. }
  reflexivity.
Qed.

End Startup.

(** X1: [createEdgeRuntime] never throws and never exits. When resolving the
    assets, evaluating the initial code or starting the server fails, the
    error is caught: what was begun stays in the trace, the console gets
    "Failed to instantiate edge runtime." followed by what [logError]
    prints for that error, and no server is returned. *)
Theorem startup_errors_are_caught :
  forall (w : World) (program : CompiledProgram),
    let assets := wasmAssets program in
    (exists r,
        outcome (createEdgeRuntime w (Some program)) = Returned r)
    /\ (forall e,
           wasm_getContext w assets = inl e ->
           createEdgeRuntime w (Some program)
           = (WasmGetContext assets
                :: ConsoleError "Failed to instantiate edge runtime."
                :: trace (logError e),
              Returned None))
    /\ (forall wasmBindings e,
           wasm_getContext w assets = inr wasmBindings ->
           evaluate w (runtime_of w program wasmBindings) = inl e ->
           createEdgeRuntime w (Some program)
           = (WasmGetContext assets
                :: NewEdgeRuntime (runtime_of w program wasmBindings)
                :: ConsoleError "Failed to instantiate edge runtime."
                :: trace (logError e),
              Returned None))
    /\ (forall wasmBindings e,
           wasm_getContext w assets = inr wasmBindings ->
           evaluate w (runtime_of w program wasmBindings) = inr tt ->
           runServer w (runtime_of w program wasmBindings) = inl e ->
           createEdgeRuntime w (Some program)
           = (WasmGetContext assets
                :: NewEdgeRuntime (runtime_of w program wasmBindings)
                :: RunServer (runtime_of w program wasmBindings)
                :: ConsoleError "Failed to instantiate edge runtime."
                :: trace (logError e),
              Returned None)).
Proof.
  intros w program assets. rewrite createEdgeRuntime_cases. fold assets.
  split; [|split; [|split]].
  - destruct (wasm_getContext w assets) as [e|wasmBindings];
      [eexists; reflexivity|].
    cbv zeta. destruct (evaluate w _) as [e|u]; [eexists; reflexivity|].
    destruct (runServer w _) as [e|url]; eexists; reflexivity.
  - intros e ->. reflexivity.
  - intros wasmBindings e -> Heval. cbv zeta. rewrite Heval. reflexivity.
  - intros wasmBindings e -> Heval Hrun. cbv zeta.
    rewrite Heval, Hrun. reflexivity.
Qed.

Lemma startup_errors_are_caught_witness :
  createEdgeRuntime (Faulty.no_bindings "missing add.wasm")
    (Some Demo.program)
  = ([WasmGetContext [];
      ConsoleError "Failed to instantiate edge runtime.";
      ConsoleError "missing add.wasm"],
     Returned None)
  /\ outcome (createEdgeRuntime (Faulty.bad_code "f is not defined")
                (Some Demo.program))
     = Returned None
  /\ outcome (createEdgeRuntime (Faulty.no_server "EADDRINUSE")
                (Some Demo.program))
     = Returned None.
Proof.
  split; [|split].
  - apply (proj1 (proj2 (startup_errors_are_caught
                           (Faulty.no_bindings "missing add.wasm")
                           Demo.program))
             (Faulty.oops "missing add.wasm")).
    reflexivity.
  - rewrite (proj1 (proj2 (proj2 (startup_errors_are_caught
                                    (Faulty.bad_code "f is not defined")
                                    Demo.program)))
               ∅ (Faulty.oops "f is not defined") eq_refl eq_refl).
    reflexivity.
  - rewrite (proj2 (proj2 (proj2 (startup_errors_are_caught
                                    (Faulty.no_server "EADDRINUSE")
                                    Demo.program)))
               ∅ (Faulty.oops "EADDRINUSE") eq_refl eq_refl eq_refl).
    reflexivity.
Defined.

(** X2: the exit hook that closes the server is registered exactly when a
    server is returned, once, and for that server; a start that fails, or
    that is not attempted, registers nothing. *)
Theorem exit_hook_iff_started :
  forall (w : World) (params : option CompiledProgram),
    List.filter is_exit_hook (trace (createEdgeRuntime w params))
    = match outcome (createEdgeRuntime w params) with
      | Returned (Some srv) => [ExitHook srv]
      | _ => []
      end.
Proof.
  intros w [program|]; [|reflexivity].
  rewrite createEdgeRuntime_cases.
  destruct (wasm_getContext w _) as [e|wasmBindings]; [reflexivity|].
  cbv zeta. destruct (evaluate w _) as [e|u]; [reflexivity|].
  destruct (runServer w _) as [e|url]; reflexivity.
Qed.

(** ** Creating the handler *)

(** X3: [createEdgeEventHandler] always returns a handler for the relative
    path it was given: whatever the bundler and the sandbox do, it neither
    throws nor exits the process. *)
Theorem handler_is_always_created :
  forall (m : Module) (w : World) (full rel : string) (isMiddleware : bool),
    exists h,
      outcome (createEdgeEventHandler m w full rel isMiddleware) = Returned h
      /\ entrypointRelativePath h = rel.
Proof.
  intros m w full rel isMiddleware. unfold createEdgeEventHandler.
  rewrite compileUserCode_cases.
  destruct (fst (esbuild_build w _)) as [e|result];
    [eexists; split; reflexivity|].
  destruct (first_output result) as [f|];
    [|eexists; split; reflexivity].
  cbn [mbind Eff_bind]. rewrite createEdgeRuntime_cases.
  destruct (wasm_getContext w _) as [e|wasmBindings];
    [eexists; split; reflexivity|].
  cbv zeta. destruct (evaluate w _) as [e|u];
    [eexists; split; reflexivity|].
  destruct (runServer w _) as [e|url]; eexists; split; reflexivity.
Qed.

Section Pipeline.

Variables (m : Module) (w : World).
Variables (full rel : string) (isMiddleware : bool).

Let options := build_options m full.
Let assets := snd (esbuild_build w options).

Variables (result : Esbuild.BuildResult) (compiledFile : Esbuild.OutputFile).

Let program :=
  {| userCode := wrap_user_code m (Esbuild.text compiledFile) rel isMiddleware;
     wasmAssets := assets |}.

Hypothesis built : fst (esbuild_build w options) = inr result.
Hypothesis bundled : first_output result = Some compiledFile.

(** Once the build succeeded, the handler is whatever the start of the
    sandbox gives. *)
Lemma createEdgeEventHandler_built :
  createEdgeEventHandler m w full rel isMiddleware
  = (EsbuildBuild options :: trace (createEdgeRuntime w (Some program)),
     match outcome (createEdgeRuntime w (Some program)) with
     | Returned server =>
         Returned {| server := server; entrypointRelativePath := rel |}
     | Thrown e => Thrown e
     | Exited c => Exited c
     end).
Proof.
  unfold createEdgeEventHandler. rewrite compileUserCode_cases.
  fold options. rewrite built, bundled. fold assets. fold program.
  cbn [mbind Eff_bind].
  destruct (createEdgeRuntime w (Some program)) as [t [server|e|c]];
    cbn; rewrite ?app_nil_r; reflexivity.
Qed.

(** X4: when the bundler produced a file and every step of the start
    succeeds, creating the handler performs, in this order, the build, the
    resolution of the assets that build recorded, the construction of a
    runtime whose initial code is the wrapped bundle and whose context is
    the extended one, the start of the server and the registration of its
    exit hook; the handler holds that server. *)
Theorem handler_of_a_started_sandbox :
  forall (wasmBindings : Context) (url : string),
    wasm_getContext w assets = inr wasmBindings ->
    let rt :=
      {| Edge.initialCode :=
           wrap_user_code m (Esbuild.text compiledFile) rel isMiddleware;
         Edge.context := extend w wasmBindings (base_context w) |} in
    evaluate w rt = inr tt ->
    runServer w rt = inr url ->
    createEdgeEventHandler m w full rel isMiddleware
    = ([EsbuildBuild options;
        WasmGetContext assets;
        NewEdgeRuntime rt;
        RunServer rt;
        ExitHook {| Edge.url := url; Edge.runtime := rt |}],
       Returned {| server := Some {| Edge.url := url; Edge.runtime := rt |};
                   entrypointRelativePath := rel |}).
Proof.
  intros wasmBindings url Hbind rt Heval Hrun.
  rewrite createEdgeEventHandler_built, createEdgeRuntime_cases.
  cbn [wasmAssets program]. rewrite Hbind. cbv zeta.
  change (runtime_of w program wasmBindings) with rt.
  rewrite Heval, Hrun. reflexivity.
Qed.

(** X5: a handler that holds a server was made from a build that produced
    a file and from a start in which every step succeeded: the server's
    runtime has the wrapped bundle as initial code and the extended context,
    its evaluation succeeded, and the server's URL is the one [runServer]
    gave for it. *)
Theorem server_implies_started :
  forall (h : Handler) (srv : Edge.Server),
    outcome (createEdgeEventHandler m w full rel isMiddleware) = Returned h ->
    server h = Some srv ->
    exists wasmBindings,
      wasm_getContext w assets = inr wasmBindings
      /\ Edge.runtime srv
         = {| Edge.initialCode :=
                wrap_user_code m (Esbuild.text compiledFile) rel isMiddleware;
              Edge.context := extend w wasmBindings (base_context w) |}
      /\ evaluate w (Edge.runtime srv) = inr tt
      /\ runServer w (Edge.runtime srv) = inr (Edge.url srv).
Proof.
  intros h srv. rewrite createEdgeEventHandler_built,
    createEdgeRuntime_cases.
  cbn [wasmAssets program].
  destruct (wasm_getContext w assets) as [e|wasmBindings];
    [intros [= <-]; discriminate|].
  cbv zeta. change (runtime_of w program wasmBindings)
    with {| Edge.initialCode :=
              wrap_user_code m (Esbuild.text compiledFile) rel isMiddleware;
            Edge.context := extend w wasmBindings (base_context w) |}.
  destruct (evaluate w _) as [e|[]] eqn:Heval;
    [intros [= <-]; discriminate|].
  destruct (runServer w _) as [e|url] eqn:Hrun;
    [intros [= <-]; discriminate|].
  intros [= <-] [= <-]. exists wasmBindings.
  repeat split; assumption.
Qed.

(** X6: when the bundler produced a file but the sandbox does not start,
    the handler is still returned, without a server and without an exit
    hook; the console was told "Failed to instantiate edge runtime."; and
    the handler exits the process with code 1 on any request, posting
    nothing. *)
Theorem failed_startup_exits_on_first_request :
  startup_fails w program ->
  exists h,
    outcome (createEdgeEventHandler m w full rel isMiddleware) = Returned h
    /\ server h = None
    /\ In (ConsoleError "Failed to instantiate edge runtime.")
         (trace (createEdgeEventHandler m w full rel isMiddleware))
    /\ List.filter is_exit_hook
         (trace (createEdgeEventHandler m w full rel isMiddleware)) = []
    /\ forall (w' : World) (request : Http.IncomingMessage),
         handle w' h request = ([], Exited 1%Z).
Proof.
  unfold startup_fails. intros Hfail.
  rewrite createEdgeEventHandler_built, createEdgeRuntime_cases.
  destruct (wasm_getContext w (wasmAssets program)) as [e|wasmBindings].
  { eexists. split; [reflexivity|]. split; [reflexivity|].
    split; [cbn; tauto|]. split; [reflexivity|].
    intros w' request. apply handle_unavailable. }
  cbv zeta. destruct (evaluate w _) as [e|u].
  { eexists. split; [reflexivity|]. split; [reflexivity|].
    split; [cbn; tauto|]. split; [reflexivity|].
    intros w' request. apply handle_unavailable. }
  destruct (runServer w _) as [e|url]; [|contradiction].
  eexists. split; [reflexivity|]. split; [reflexivity|].
  split; [cbn; tauto|]. split; [reflexivity|].
  intros w' request. apply handle_unavailable.
Qed.

End Pipeline.

Lemma handler_of_a_started_sandbox_witness :
  let rt :=
    {| Edge.initialCode :=
         wrap_user_code Demo.edge_module "module.exports = f" "api/x.js" false;
       Edge.context := extend Demo.quiet ∅ ∅ |} in
  let srv := {| Edge.url := "http://127.0.0.1:3000/"; Edge.runtime := rt |} in
  createEdgeEventHandler Demo.edge_module Demo.quiet "/repo/api/x.js"
    "api/x.js" false
  = ([EsbuildBuild (build_options Demo.edge_module "/repo/api/x.js");
      WasmGetContext [];
      NewEdgeRuntime rt;
      RunServer rt;
      ExitHook srv],
     Returned {| server := Some srv; entrypointRelativePath := "api/x.js" |}).
Proof.
  intros rt srv.
  apply (handler_of_a_started_sandbox Demo.edge_module Demo.quiet
           "/repo/api/x.js" "api/x.js" false
           {| Esbuild.outputFiles :=
                Some [ {| Esbuild.text := "module.exports = f" |} ] |}
           {| Esbuild.text := "module.exports = f" |}
           eq_refl eq_refl ∅ "http://127.0.0.1:3000/"
           eq_refl eq_refl eq_refl).
Defined.

Lemma server_implies_started_witness :
  let rt :=
    {| Edge.initialCode :=
         wrap_user_code Demo.edge_module "module.exports = f" "api/x.js" false;
       Edge.context := extend Demo.quiet ∅ ∅ |} in
  let srv := {| Edge.url := "http://127.0.0.1:3000/"; Edge.runtime := rt |} in
  exists wasmBindings,
    wasm_getContext Demo.quiet [] = inr wasmBindings
    /\ Edge.runtime srv
       = {| Edge.initialCode :=
              wrap_user_code Demo.edge_module "module.exports = f"
                "api/x.js" false;
            Edge.context := extend Demo.quiet wasmBindings ∅ |}
    /\ evaluate Demo.quiet (Edge.runtime srv) = inr tt
    /\ runServer Demo.quiet (Edge.runtime srv) = inr (Edge.url srv).
Proof.
  intros rt srv.
  apply (server_implies_started Demo.edge_module Demo.quiet
           "/repo/api/x.js" "api/x.js" false
           {| Esbuild.outputFiles :=
                Some [ {| Esbuild.text := "module.exports = f" |} ] |}
           {| Esbuild.text := "module.exports = f" |}
           eq_refl eq_refl
           {| server := Some srv; entrypointRelativePath := "api/x.js" |} srv
           eq_refl eq_refl).
Defined.

Lemma failed_startup_exits_on_first_request_witness :
  exists h,
    outcome (createEdgeEventHandler Demo.edge_module
               (Faulty.no_server "EADDRINUSE") "/repo/api/x.js" "api/x.js"
               false)
    = Returned h
    /\ server h = None
    /\ In (ConsoleError "Failed to instantiate edge runtime.")
         (trace (createEdgeEventHandler Demo.edge_module
                   (Faulty.no_server "EADDRINUSE") "/repo/api/x.js"
                   "api/x.js" false))
    /\ List.filter is_exit_hook
         (trace (createEdgeEventHandler Demo.edge_module
                   (Faulty.no_server "EADDRINUSE") "/repo/api/x.js"
                   "api/x.js" false)) = []
    /\ forall (w' : World) (request : Http.IncomingMessage),
         handle w' h request = ([], Exited 1%Z).
Proof.
  apply (failed_startup_exits_on_first_request Demo.edge_module
           (Faulty.no_server "EADDRINUSE") "/repo/api/x.js" "api/x.js" false
           {| Esbuild.outputFiles :=
                Some [ {| Esbuild.text := "module.exports = f" |} ] |}
           {| Esbuild.text := "module.exports = f" |}
           eq_refl eq_refl).
  exact I.
Defined.

(** ** Every way a request can end *)

(** [handle], case by case on the server, the request and the sandbox. *)
Lemma handle_cases (w : World) (h : Handler)
  (request : Http.IncomingMessage) :
  handle w h request
  = match server h with
    | None => ([], Exited 1%Z)
    | Some srv =>
        match Http.stream request with
        | inl e => ([], Thrown e)
        | inr B =>
            let post :=
              Fetch (Edge.url srv)
                (fetch_init
                   (Json.stringify
                      (Json.Obj (request_object request (Base64.encode B)))))
            in
            match fetch w (Edge.url srv)
                    (fetch_init
                       (Json.stringify
                          (Json.Obj
                             (request_object request (Base64.encode B)))))
            with
            | inl e => ([post], Thrown e)
            | inr response =>
                match NodeFetch.text response with
                | inl e => ([post], Thrown e)
                | inr text =>
                    if isUserError response
                       && (500 <=? NodeFetch.status response)%Z
                    then ([post;
                           ConsoleLog
                             (fatal_log_line (entrypointRelativePath h)
                                text)],
                          Exited 1%Z)
                    else ([post],
                          Returned
                            {| statusCode := NodeFetch.status response;
                               headers :=
                                 NodeFetch.raw (NodeFetch.headers response);
                               body := text;
                               encoding := "utf8" |})
                end
            end
        end
    end.
Proof.
  unfold handle, serializeRequest, streamToBuffer.
  destruct (server h) as [srv|]; [|reflexivity].
  destruct (Http.stream request) as [e|B]; [reflexivity|]. cbn.
  destruct (fetch w _ _) as [e|response]; [reflexivity|]. cbn.
  destruct (NodeFetch.text response) as [e|text]; [reflexivity|]. cbn.
  destruct (isUserError response && (500 <=? NodeFetch.status response)%Z);
    reflexivity.
Qed.

(** X7: when the sandbox cannot be reached ([fetch] rejects) or its answer
    cannot be read ([response.text()] rejects), [handle] throws that error
    after its one POST: it logs nothing and does not exit the process, not
    even when the unreadable answer carried the failure header with a
    status of 500 or more. *)
Theorem transport_failure_is_thrown :
  forall (w : World) (h : Handler) (srv : Edge.Server)
         (request : Http.IncomingMessage) (B : list byte),
    server h = Some srv ->
    Http.stream request = inr B ->
    let init :=
      fetch_init
        (Json.stringify
           (Json.Obj (request_object request (Base64.encode B)))) in
    (forall e,
        fetch w (Edge.url srv) init = inl e ->
        handle w h request = ([Fetch (Edge.url srv) init], Thrown e))
    /\ (forall response e,
           fetch w (Edge.url srv) init = inr response ->
           NodeFetch.text response = inl e ->
           handle w h request = ([Fetch (Edge.url srv) init], Thrown e)).
Proof.
  intros w h srv request B Hrun Hdrain init.
  rewrite handle_cases, Hrun, Hdrain. cbv zeta. fold init. split.
  - intros e ->. reflexivity.
  - intros response e -> ->. reflexivity.
Qed.

Lemma transport_failure_is_thrown_witness :
  let init :=
    fetch_init
      (Json.stringify
         (Json.Obj (request_object Demo.get_hello (Base64.encode [])))) in
  handle (Faulty.unreachable "ECONNREFUSED") (Demo.running "api/x.js")
    Demo.get_hello
  = ([Fetch "http://127.0.0.1:3000/" init],
     Thrown (Faulty.oops "ECONNREFUSED"))
  /\ handle
       (Faulty.truncated 500 [("x-vercel-failed", ["edge-wrapper"])]
          "socket hang up")
       (Demo.running "api/x.js") Demo.get_hello
     = ([Fetch "http://127.0.0.1:3000/" init],
        Thrown (Faulty.oops "socket hang up")).
Proof.
  intros init. split.
  - apply (proj1 (transport_failure_is_thrown
                    (Faulty.unreachable "ECONNREFUSED")
                    (Demo.running "api/x.js") Demo.edge_server
                    Demo.get_hello [] eq_refl eq_refl)).
    reflexivity.
  - apply (proj2 (transport_failure_is_thrown
                    (Faulty.truncated 500
                       [("x-vercel-failed", ["edge-wrapper"])]
                       "socket hang up")
                    (Demo.running "api/x.js") Demo.edge_server
                    Demo.get_hello [] eq_refl eq_refl)
             {| NodeFetch.status := 500;
                NodeFetch.headers :=
                  Demo.headers_of [("x-vercel-failed", ["edge-wrapper"])];
                NodeFetch.text := inl (Faulty.oops "socket hang up") |}).
    + reflexivity.
    + reflexivity.
Defined.

(** X8: when draining the body of the request fails, [serializeRequest]
    throws that error, and so does [handle] through a running sandbox,
    before anything is posted: the sandbox never sees the request. *)
Theorem unreadable_request_is_not_posted :
  forall (w : World) (h : Handler) (srv : Edge.Server)
         (request : Http.IncomingMessage) (e : Error),
    server h = Some srv ->
    Http.stream request = inl e ->
    serializeRequest request = ([], Thrown e)
    /\ handle w h request = ([], Thrown e).
Proof.
  intros w h srv request e Hrun Hstream. split.
  - unfold serializeRequest, streamToBuffer. rewrite Hstream. reflexivity.
  - rewrite handle_cases, Hrun, Hstream. reflexivity.
Qed.

Lemma unreadable_request_is_not_posted_witness :
  serializeRequest (Faulty.aborted "aborted")
  = ([], Thrown (Faulty.oops "aborted"))
  /\ handle Demo.quiet (Demo.running "api/upload.js")
       (Faulty.aborted "aborted")
     = ([], Thrown (Faulty.oops "aborted")).
Proof.
  apply (unreadable_request_is_not_posted Demo.quiet
           (Demo.running "api/upload.js") Demo.edge_server
           (Faulty.aborted "aborted") (Faulty.oops "aborted")
           eq_refl eq_refl).
Defined.

(** X9: whatever the handler, the world and the request, [handle] performs
    nothing, or one POST, or one POST followed by one console.log line; the
    log line is written only on the way to an exit; and the only exit code
    [handle] ever uses is 1. *)
Theorem handle_effects_are_bounded :
  forall (w : World) (h : Handler) (request : Http.IncomingMessage),
    (trace (handle w h request) = []
     \/ (exists url init, trace (handle w h request) = [Fetch url init])
     \/ (exists url init line code,
            handle w h request
            = ([Fetch url init; ConsoleLog line], Exited code)))
    /\ (forall code,
           outcome (handle w h request) = Exited code -> code = 1%Z).
Proof.
  intros w h request. rewrite handle_cases.
  destruct (server h) as [srv|];
    [|split; [left; reflexivity|intros code [= <-]; reflexivity]].
  destruct (Http.stream request) as [e|B];
    [split; [left; reflexivity|discriminate]|].
  cbv zeta. destruct (fetch w _ _) as [e|response];
    [split; [right; left; eexists _, _; reflexivity|discriminate]|].
  destruct (NodeFetch.text response) as [e|text];
    [split; [right; left; eexists _, _; reflexivity|discriminate]|].
  destruct (isUserError response && (500 <=? NodeFetch.status response)%Z).
  - split; [right; right; eexists _, _, _, _; reflexivity|].
    intros code [= <-]. reflexivity.
  - split; [right; left; eexists _, _; reflexivity|discriminate].
Qed.

(** X10: [handle] never hands back a fatal user error. A response it
    returns has the encoding "utf8" and is, field by field, an answer that
    the server of the handler gave to the POST of this request, and that
    answer did not carry both the failure header and a status of 500 or
    more. *)
Theorem returned_response_is_not_fatal :
  forall (w : World) (h : Handler) (request : Http.IncomingMessage)
         (p : ProxyResponse),
    outcome (handle w h request) = Returned p ->
    encoding p = "utf8"
    /\ exists srv B response,
         server h = Some srv
         /\ Http.stream request = inr B
         /\ fetch w (Edge.url srv)
              (fetch_init
                 (Json.stringify
                    (Json.Obj (request_object request (Base64.encode B)))))
            = inr response
         /\ NodeFetch.text response = inr (body p)
         /\ statusCode p = NodeFetch.status response
         /\ headers p = NodeFetch.raw (NodeFetch.headers response)
         /\ ~ (NodeFetch.get (NodeFetch.headers response) "x-vercel-failed"
               = Some "edge-wrapper"
               /\ (500 <= NodeFetch.status response)%Z).
Proof.
  intros w h request p. rewrite handle_cases.
  destruct (server h) as [srv|]; [|discriminate].
  destruct (Http.stream request) as [e|B]; [discriminate|].
  cbv zeta. destruct (fetch w _ _) as [e|response] eqn:Hfetch; [discriminate|].
  destruct (NodeFetch.text response) as [e|text] eqn:Htext; [discriminate|].
  destruct (isUserError response && (500 <=? NodeFetch.status response)%Z)
    eqn:Hfatal; [discriminate|].
  intros [= <-]. split; [reflexivity|].
  exists srv, B, response. repeat split; try assumption; try reflexivity.
  intros [Hsignal Hstatus].
  apply andb_false_iff in Hfatal as [Hu | Hs].
  - unfold isUserError in Hu. apply bool_decide_eq_false in Hu.
    apply Hu. exact Hsignal.
  - apply Z.leb_gt in Hs. lia.
Qed.

Lemma returned_response_is_not_fatal_witness :
  let w :=
    Demo.world "v18.12.1" (Demo.bundle "")
      (fun _ _ =>
         inr (Demo.response 503 [("retry-after", ["1"])] "busy")) in
  exists srv B response,
    server (Demo.running "api/x.js") = Some srv
    /\ Http.stream Demo.get_hello = inr B
    /\ fetch w (Edge.url srv)
         (fetch_init
            (Json.stringify
               (Json.Obj (request_object Demo.get_hello (Base64.encode B)))))
       = inr response
    /\ NodeFetch.text response = inr "busy"
    /\ 503%Z = NodeFetch.status response
    /\ [("retry-after", ["1"])] = NodeFetch.raw (NodeFetch.headers response)
    /\ ~ (NodeFetch.get (NodeFetch.headers response) "x-vercel-failed"
          = Some "edge-wrapper"
          /\ (500 <= NodeFetch.status response)%Z).
Proof.
  intros w.
  apply (proj2 (returned_response_is_not_fatal w (Demo.running "api/x.js")
                  Demo.get_hello
                  {| statusCode := 503;
                     headers := [("retry-after", ["1"])];
                     body := "busy";
                     encoding := "utf8" |}
                  eq_refl)).
Defined.

(** ** More on the route label *)

(** A path has no dot, or it has a last one. *)
Lemma last_dot (s : string) :
  JsString.free_of "." s = true
  \/ exists p t, JsString.free_of "." t = true /\ s = p +:+ String "." t.
Proof.
  induction s as [|c s [Hfree | (p & t & Ht & ->)]].
  - left. reflexivity.
  - destruct (Ascii.eqb c ".") eqn:Hc.
    + apply Ascii.eqb_eq in Hc. subst c. right.
      exists EmptyString, s. split; [exact Hfree|reflexivity].
    + left. cbn [JsString.free_of]. rewrite Hc, Hfree. reflexivity.
  - right. exists (String c p), t. split; [exact Ht|reflexivity].
Qed.

Lemma extractUrlPath_last_dot (p t : string) :
  JsString.free_of "." t = true -> extractUrlPath (p +:+ String "." t) = p.
Proof.
  intros Ht. unfold extractUrlPath.
  rewrite split_app_length, split_app, (split_free _ _ Ht).
  unfold JsString.pop. rewrite removelast_last.
  apply (join_split "." p).
Qed.

Lemma append_empty (s : string) : s +:+ EmptyString = s.
Proof.
  induction s as [|c s IH]; [reflexivity|].
  rewrite append_cons, IH. reflexivity.
Qed.

(** X11: the route label only ever drops the end of the path. Every path
    either has no dot and is its own label, or is its label followed by a
    dot and a suffix that has no dot; in both cases the label is a prefix
    of the path. *)
Theorem route_label_is_a_prefix :
  forall s : string,
    ((JsString.free_of "." s = true /\ extractUrlPath s = s)
     \/ (exists t,
            JsString.free_of "." t = true
            /\ s = extractUrlPath s +:+ "." +:+ t))
    /\ exists rest, s = extractUrlPath s +:+ rest.
Proof.
  intros s. destruct (last_dot s) as [Hfree | (p & t & Ht & ->)].
  - assert (extractUrlPath s = s) as Hid.
    { unfold extractUrlPath. rewrite (split_free _ _ Hfree). reflexivity. }
    split; [left; split; assumption|].
    exists EmptyString. rewrite Hid, append_empty. reflexivity.
  - rewrite (extractUrlPath_last_dot p t Ht). split.
    + right. exists t. split; [exact Ht|reflexivity].
    + exists (String "." t). reflexivity.
Qed.

(** ** More on the payload *)

(** X12: the payload determines the body. Two requests whose bodies drain
    and whose serializations are equal have the same body bytes, whatever
    their urls, methods and headers. *)
Theorem payload_determines_body :
  forall (r1 r2 : Http.IncomingMessage) (B1 B2 : list byte),
    Http.stream r1 = inr B1 ->
    Http.stream r2 = inr B2 ->
    serializeRequest r1 = serializeRequest r2 ->
    B1 = B2.
Proof.
  intros r1 r2 B1 B2 H1 H2 Heq.
  assert (Json.stringify
            (Json.Obj (request_object r1 (Base64.encode B1)))
          = Json.stringify
              (Json.Obj (request_object r2 (Base64.encode B2)))) as Hp.
  { apply (f_equal (fun m : Eff (option string) =>
                      match snd m with
                      | Returned payload => payload
                      | _ => None
                      end)) in Heq.
    unfold serializeRequest, streamToBuffer in Heq.
    rewrite H1, H2 in Heq. exact Heq. }
  pose proof (echo_decodes r1 B1) as E1.
  rewrite Hp, echo_decodes in E1. injection E1 as ->. reflexivity.
Qed.

Lemma payload_determines_body_witness :
  [Byte.x48; Byte.x69; Byte.x21] = [Byte.x48; Byte.x69; Byte.x21].
Proof.
  apply (payload_determines_body Demo.post_echo Demo.post_echo
           [Byte.x48; Byte.x69; Byte.x21] [Byte.x48; Byte.x69; Byte.x21]
           eq_refl eq_refl eq_refl).
Defined.

Section Base64Shape.

Import Base64.

(** X13: the base64 text of [n] bytes has [4 * ceil (n / 3)] characters,
    all of them from the alphabet or the padding character: the body
    member of the payload never needs an escape. *)
Theorem base64_text_shape :
  forall bs : list byte,
    String.length (encode bs) = (4 * ((List.length bs + 2) / 3))%nat
    /\ JsString.every is_char (encode bs) = true
    /\ Json.quote (encode bs)
       = String Json.dquote (encode bs +:+ String Json.dquote EmptyString).
Proof.
  intros bs. split; [|split; [apply encode_is_char|apply quote_encode]].
  enough (String.length (encode bs) = (4 * ((List.length bs + 2) / 3))%nat
          /\ (forall a,
                 String.length (encode (a :: bs))
                 = (4 * ((List.length (a :: bs) + 2) / 3))%nat)
          /\ (forall a b,
                 String.length (encode (a :: b :: bs))
                 = (4 * ((List.length (a :: b :: bs) + 2) / 3))%nat))
    as [H _] by exact H.
  induction bs as [|c bs (IH0 & IH1 & IH2)].
  - repeat split; reflexivity.
  - split; [exact (IH1 c)|]. split; [intros a; exact (IH2 a c)|].
    intros a b. rewrite encode_three. cbn [String.length List.length].
    rewrite IH0.
    replace (S (S (S (List.length bs))) + 2)%nat
      with (List.length bs + 2 + 1 * 3)%nat by lia.
    rewrite Nat.div_add by discriminate. lia.
Qed.

End Base64Shape.

(** ** More on loading the module *)

(** X14: a module that loads never carries the identifier "nodeundefined":
    its identifier is ["node" ++ major] for the digits [major] that
    [process.version] starts with after its [v], and its template is the
    text that was read. When the version matches but the template cannot be
    read, loading throws the error of the read. *)
Theorem loaded_module_is_well_formed :
  forall w : World,
    (forall m,
        load_module w = inr m ->
        exists major,
          NodeVersion.matches (process_version w) major
          /\ NODE_VERSION_IDENTIFIER m = "node" +:+ major
          /\ NODE_VERSION_IDENTIFIER m <> "nodeundefined"
          /\ read_template w = inr (edgeHandlerTemplate m))
    /\ (forall major e,
           NodeVersion.matches (process_version w) major ->
           read_template w = inl e ->
           load_module w = inl e).
Proof.
  intros w. split.
  - intros m. unfold load_module.
    destruct (NodeVersion.match_major (process_version w)) as [major|] eqn:E;
      [|discriminate].
    destruct (read_template w) as [e|template]; [discriminate|].
    intros [= <-]. exists major.
    apply match_major_matches in E.
    split; [exact E|]. split; [reflexivity|]. split; [|reflexivity].
    cbn [NODE_VERSION_IDENTIFIER render_major].
    destruct E as (minor & rest & Hmajor & _ & _).
    intros Heq.
    change ("node" +:+ major)
      with (String "n" (String "o" (String "d" (String "e" major)))) in Heq.
    injection Heq as ->. discriminate Hmajor.
  - intros major e Hmatch Hread. apply match_major_matches in Hmatch.
    unfold load_module. rewrite Hmatch, Hread. reflexivity.
Qed.

Lemma loaded_module_is_well_formed_witness :
  (exists major,
      NodeVersion.matches "v18.12.1" major
      /\ NODE_VERSION_IDENTIFIER Demo.edge_module = "node" +:+ major
      /\ NODE_VERSION_IDENTIFIER Demo.edge_module <> "nodeundefined"
      /\ read_template Demo.quiet
         = inr (edgeHandlerTemplate Demo.edge_module))
  /\ load_module (Faulty.no_template "ENOENT") = inl (Faulty.oops "ENOENT").
Proof.
  split.
  - apply (proj1 (loaded_module_is_well_formed Demo.quiet) Demo.edge_module).
    reflexivity.
  - apply (proj2 (loaded_module_is_well_formed (Faulty.no_template "ENOENT"))
             "18" (Faulty.oops "ENOENT")).
    + exists "12", ".1". repeat split; reflexivity.
    + reflexivity.
Defined.

(** ** More on the context of the sandbox *)

(** X15: what [extend] leaves in the global object. Every wasm binding is
    visible under its own name, whatever was there before; [module] is the
    empty object unless a wasm binding took that name; and every other
    name, [process] apart, keeps the value the runtime gave it. *)
Theorem extend_bindings :
  forall (w : World) (wasmBindings context : Context),
    (forall k v,
        wasmBindings !! k = Some v ->
        extend w wasmBindings context !! k = Some v)
    /\ (wasmBindings !! "module" = None ->
        extend w wasmBindings context !! "module" = Some (VObj []))
    /\ (forall k,
           k <> "module" -> k <> "process" ->
           wasmBindings !! k = None ->
           extend w wasmBindings context !! k = context !! k).
Proof.
  intros w wasmBindings context. unfold extend. split; [|split].
  - intros k v Hk. apply lookup_union_Some_l, lookup_union_Some_l, Hk.
  - intros Hfree. apply lookup_union_Some_l.
    rewrite lookup_union_r by exact Hfree.
    rewrite lookup_insert_ne by discriminate. apply lookup_insert_eq.
  - intros k Hmodule Hprocess Hfree.
    apply lookup_union_r. rewrite lookup_union_r by exact Hfree.
    rewrite !lookup_insert_ne by congruence. apply lookup_empty.
Qed.

Lemma extend_bindings_witness :
  let wasm : Context := {[ "wasm_1f3a" := VOpaque "add.wasm" ]} in
  let base : Context :=
    {[ "fetch" := VOpaque "fetch"; "wasm_1f3a" := VOpaque "stale" ]} in
  extend Demo.quiet wasm base !! "wasm_1f3a" = Some (VOpaque "add.wasm")
  /\ extend Demo.quiet wasm base !! "module" = Some (VObj [])
  /\ extend Demo.quiet wasm base !! "fetch" = base !! "fetch".
Proof.
  intros wasm base.
  pose proof (extend_bindings Demo.quiet wasm base) as (Hwasm & Hmodule & Hrest).
  split; [|split].
  - apply Hwasm. reflexivity.
  - apply Hmodule. reflexivity.
  - apply Hrest; [discriminate|discriminate|reflexivity].
Defined.

(** The [process.env] of a sandbox that started is the host's object. *)
Lemma started_env_object (w : World) (program : CompiledProgram)
  (srv : Edge.Server) :
  outcome (createEdgeRuntime w (Some program)) = Returned (Some srv) ->
  (forall wasmBindings,
      wasm_getContext w (wasmAssets program) = inr wasmBindings ->
      wasmBindings !! "process" = None) ->
  Sandbox.env_object (Edge.context (Edge.runtime srv))
  = Some (process_env w).
Proof.
  intros Hstart Hfree.
  destruct (started_context w program srv Hstart) as (wb & Hwb & Hctx).
  unfold Sandbox.env_object.
  rewrite Hctx, (extend_process w wb _ (Hfree wb Hwb)). reflexivity.
Qed.

(** X16: two sandboxes started in the same process hold the same
    environment object. Provided no wasm binding is named [process], what
    one sandbox writes to [process.env] is what the other one reads
    afterwards. *)
Theorem sandboxes_share_the_environment :
  forall (w : World) (p1 p2 : CompiledProgram) (srv1 srv2 : Edge.Server),
    outcome (createEdgeRuntime w (Some p1)) = Returned (Some srv1) ->
    outcome (createEdgeRuntime w (Some p2)) = Returned (Some srv2) ->
    (forall (p : CompiledProgram) (wasmBindings : Context),
        wasm_getContext w (wasmAssets p) = inr wasmBindings ->
        wasmBindings !! "process" = None) ->
    forall (heap : Heap) (k v : string),
      Sandbox.env (Edge.context (Edge.runtime srv2))
        (Sandbox.setenv (Edge.context (Edge.runtime srv1)) k v heap)
      = insert k v
          <$> Sandbox.env (Edge.context (Edge.runtime srv2)) heap.
Proof.
  intros w p1 p2 srv1 srv2 H1 H2 Hfree heap k v.
  unfold Sandbox.env, Sandbox.setenv.
  rewrite (started_env_object w p1 srv1 H1 (Hfree p1)).
  rewrite (started_env_object w p2 srv2 H2 (Hfree p2)).
  cbn [mbind option_bind]. apply lookup_alter_eq.
Qed.

Lemma sandboxes_share_the_environment_witness :
  let other : CompiledProgram :=
    {| userCode := "module.exports = g"; wasmAssets := [] |} in
  let srv2 : Edge.Server :=
    {| Edge.url := "http://127.0.0.1:3000/";
       Edge.runtime :=
         {| Edge.initialCode := "module.exports = g";
            Edge.context := extend Demo.quiet ∅ ∅ |} |} in
  Sandbox.env (Edge.context (Edge.runtime srv2))
    (Sandbox.setenv (Edge.context (Edge.runtime Demo.started))
       "API_KEY" "leaked" Demo.heap)
  = insert "API_KEY" "leaked"
      <$> Sandbox.env (Edge.context (Edge.runtime srv2)) Demo.heap.
Proof.
  intros other srv2.
  apply (sandboxes_share_the_environment Demo.quiet Demo.program other
           Demo.started srv2 eq_refl eq_refl).
  intros p wasmBindings [= <-]. reflexivity.
Defined.

(** ** From creation to requests *)

(** X17: creation and requests compose. When the bundler produced a file and
    the sandbox started at the URL [url], the handler that was created
    posts every request whose body drains to that URL, once, with the
    serialized request as body. *)
Theorem requests_reach_the_started_server :
  forall (m : Module) (w : World) (full rel : string) (isMiddleware : bool)
         (result : Esbuild.BuildResult) (compiledFile : Esbuild.OutputFile)
         (wasmBindings : Context) (url : string),
    fst (esbuild_build w (build_options m full)) = inr result ->
    first_output result = Some compiledFile ->
    wasm_getContext w (snd (esbuild_build w (build_options m full)))
    = inr wasmBindings ->
    let rt :=
      {| Edge.initialCode :=
           wrap_user_code m (Esbuild.text compiledFile) rel isMiddleware;
         Edge.context := extend w wasmBindings (base_context w) |} in
    evaluate w rt = inr tt ->
    runServer w rt = inr url ->
    exists h,
      outcome (createEdgeEventHandler m w full rel isMiddleware) = Returned h
      /\ forall (w' : World) (request : Http.IncomingMessage) (B : list byte),
           Http.stream request = inr B ->
           exists rest,
             trace (handle w' h request)
             = Fetch url
                 (fetch_init
                    (Json.stringify
                       (Json.Obj
                          (request_object request (Base64.encode B)))))
               :: rest
             /\ Forall (fun ev => is_fetch ev = false) rest.
Proof.
  intros m w full rel isMiddleware result compiledFile wasmBindings url
         Hbuilt Hfile Hbind rt Heval Hrun.
  rewrite (createEdgeEventHandler_built m w full rel isMiddleware
             result compiledFile Hbuilt Hfile),
    createEdgeRuntime_cases.
  cbn [wasmAssets]. rewrite Hbind. cbv zeta.
  change (runtime_of w _ wasmBindings) with rt.
  rewrite Heval, Hrun.
  eexists. split; [reflexivity|].
  intros w' request B Hdrain.
  destruct (handle_posts w'
              {| server := Some {| Edge.url := url; Edge.runtime := rt |};
                 entrypointRelativePath := rel |}
              {| Edge.url := url; Edge.runtime := rt |}
              request B eq_refl Hdrain) as (rest & o & Heq & Hrest).
  exists rest. rewrite Heq. split; [reflexivity|exact Hrest].
Qed.

Lemma requests_reach_the_started_server_witness :
  exists h,
    outcome (createEdgeEventHandler Demo.edge_module Demo.quiet
               "/repo/api/x.js" "api/x.js" false)
    = Returned h
    /\ forall (w' : World) (request : Http.IncomingMessage) (B : list byte),
         Http.stream request = inr B ->
         exists rest,
           trace (handle w' h request)
           = Fetch "http://127.0.0.1:3000/"
               (fetch_init
                  (Json.stringify
                     (Json.Obj (request_object request (Base64.encode B)))))
             :: rest
           /\ Forall (fun ev => is_fetch ev = false) rest.
Proof.
  apply (requests_reach_the_started_server Demo.edge_module Demo.quiet
           "/repo/api/x.js" "api/x.js" false
           {| Esbuild.outputFiles :=
                Some [ {| Esbuild.text := "module.exports = f" |} ] |}
           {| Esbuild.text := "module.exports = f" |}
           ∅ "http://127.0.0.1:3000/"
           eq_refl eq_refl eq_refl eq_refl eq_refl).
Defined.

(** ** The declarations of the compiled script *)

Section Declarations.

Variables (m : Module) (rel : string) (isMiddleware : bool).





End Declarations.




(** ** The payload as text *)

Section PayloadAsText.

Lemma stringify_str (s : string) :
  Json.stringify (Json.Str s) = Some (Json.quote s).
Proof. reflexivity. Qed.

Lemma stringify_arr (xs : list Json.value) :
  Json.stringify (Json.Arr xs)
  = Some ("[" +:+ JsString.join ","
            (List.map (fun x => default "null" (Json.stringify x)) xs)
          +:+ "]").
Proof. reflexivity. Qed.

Lemma stringify_obj (props : list (string * Json.value)) :
  Json.stringify (Json.Obj props)
  = Some ("{" +:+ JsString.join ","
            (omap (fun p : string * Json.value =>
                     let (k, x) := p in
                     (fun r => Json.quote k +:+ ":" +:+ r)
                       <$> Json.stringify x) props)
          +:+ "}").
Proof. reflexivity. Qed.

(** The text of one header value. *)
Lemma stringify_header_value (v : Http.HeaderValue) :
  Json.stringify (header_value v)
  = Some match v with
         | Http.Single s => Json.quote s
         | Http.Multi vs =>
             "[" +:+ JsString.join "," (List.map Json.quote vs) +:+ "]"
         end.
Proof.
  destruct v as [s|vs]; [reflexivity|].
  unfold header_value. rewrite stringify_arr.
  assert (List.map (fun x => default "null" (Json.stringify x))
            (List.map Json.Str vs)
          = List.map Json.quote vs) as ->; [|reflexivity].
  induction vs as [|v vs IH]; [reflexivity|].
  cbn [List.map]. rewrite IH, stringify_str. reflexivity.
Qed.

(** The text of the headers: one member per header, in order. *)
Lemma stringify_headers_text (hs : list (string * Http.HeaderValue)) :
  Json.stringify (headers_object hs)
  = Some ("{" +:+ JsString.join ","
            (List.map
               (fun h : string * Http.HeaderValue =>
                  Json.quote (fst h) +:+ ":"
                  +:+ match snd h with
                      | Http.Single s => Json.quote s
                      | Http.Multi vs =>
                          "[" +:+ JsString.join "," (List.map Json.quote vs)
                          +:+ "]"
                      end) hs)
          +:+ "}").
Proof.
  unfold headers_object. rewrite stringify_obj.
  match goal with
  | |- Some (_ +:+ JsString.join _ ?l +:+ _)
       = Some (_ +:+ JsString.join _ ?r +:+ _) =>
      assert (l = r) as ->; [|reflexivity]
  end.
  induction hs as [|[k v] hs IH]; [reflexivity|].
  cbn [List.map omap list_omap fst snd].
  rewrite stringify_header_value. cbn [fmap option_fmap option_map].
  rewrite IH. reflexivity.
Qed.

(** The reader undoes the escape of one character. *)
Lemma read_escape (c : ascii) (rest : string) :
  JsonReader.read_body (Json.escape c +:+ rest)
  = JsLiteral.prepend c (JsonReader.read_body rest).
Proof. destruct c as [[] [] [] [] [] [] [] []]; reflexivity. Qed.

Lemma read_escape_all (s rest : string) :
  JsonReader.read_body (Json.escape_all s +:+ String Json.dquote rest)
  = Some (s, rest).
Proof.
  induction s as [|c s IH].
  - cbn [Json.escape_all]. rewrite append_nil.
    cbn [JsonReader.read_body]. rewrite Ascii.eqb_refl. reflexivity.
  - cbn [Json.escape_all]. rewrite string_app_assoc, read_escape, IH.
    reflexivity.
Qed.

(** What [JSON.stringify] writes for a string, a JSON reader reads back. *)
Lemma read_quote (s rest : string) :
  JsonReader.read_string (Json.quote s +:+ rest) = Some (s, rest).
Proof.
  unfold Json.quote. rewrite append_cons, string_app_assoc.
  cbn [JsonReader.read_string]. rewrite Ascii.eqb_refl.
  apply read_escape_all.
Qed.

End PayloadAsText.

(** C4: for a request whose body drains to the bytes [B], the payload is the
    JSON text written out below: an object with the members [url] and
    [method] (each left out when the request has none), [headers] (one
    member per header of the request, in order, a string for a single value
    and an array of strings for several) and [body], every string between
    quotes with its escapes, and the body the base64 text of [B]. Every
    string so written is read back by a JSON reader as the string it was,
    the body member reads back as the base64 text, and that text decodes to
    [B]. Consequently, when the sandbox answers that payload with status
    200 and [B] as body, read by the client as the text [utf8 B], [handle]
    returns status 200, the body [utf8 B] and the encoding "utf8"; the
    sandbox [Echo.respond], which decodes the body member of what it is
    posted, is such a sandbox for every request. *)
Theorem request_round_trip :
  forall (request : Http.IncomingMessage) (B : list byte),
    Http.stream request = inr B ->
    let members := request_object request (Base64.encode B) in
    let member (k : string) (v : option string) :=
      match v with
      | Some s => [Json.quote k +:+ ":" +:+ Json.quote s]
      | None => []
      end in
    let header (h : string * Http.HeaderValue) :=
      Json.quote (fst h) +:+ ":"
      +:+ match snd h with
          | Http.Single s => Json.quote s
          | Http.Multi vs =>
              "[" +:+ JsString.join "," (List.map Json.quote vs) +:+ "]"
          end in
    let payload :=
      "{" +:+ JsString.join ","
        (member "url" (Http.url request)
         ++ member "method" (Http.method request)
         ++ [Json.quote "headers" +:+ ":" +:+ "{"
             +:+ JsString.join "," (List.map header (Http.headers request))
             +:+ "}";
             Json.quote "body" +:+ ":" +:+ dq +:+ Base64.encode B +:+ dq])%list
      +:+ "}" in
    serializeRequest request = ([], Returned (Some payload))
    /\ Json.stringify (Json.Obj members) = Some payload
    /\ (forall s rest : string,
           JsonReader.read_string (Json.quote s +:+ rest) = Some (s, rest))
    /\ JsonReader.read_string (dq +:+ Base64.encode B +:+ dq +:+ "}")
       = Some (Base64.encode B, "}")
    /\ Echo.body_of_payload payload = Some (Base64.encode B)
    /\ Base64.decode (Base64.encode B) = Some B
    /\ Json.get "url" members = Json.of_option (Http.url request)
    /\ Json.get "method" members = Json.of_option (Http.method request)
    /\ Json.get "headers" members = headers_object (Http.headers request)
    /\ Json.get "body" members = Json.Str (Base64.encode B)
    /\ (forall (w : World) (h : Handler) (srv : Edge.Server)
               (response : NodeFetch.Response) (utf8 : list byte -> string),
           server h = Some srv ->
           fetch w (Edge.url srv) (fetch_init (Some payload)) = inr response ->
           NodeFetch.status response = 200%Z ->
           NodeFetch.text response = inr (utf8 B) ->
           handle w h request
           = ([Fetch (Edge.url srv) (fetch_init (Some payload))],
              Returned {| statusCode := 200;
                          headers :=
                            NodeFetch.raw (NodeFetch.headers response);
                          body := utf8 B;
                          encoding := "utf8" |}))
    /\ (forall (utf8 : list byte -> string)
               (raw : list (string * list string)) (rel : string),
           handle (Echo.world utf8 raw) (Demo.running rel) request
           = ([Fetch "http://127.0.0.1:3000/" (fetch_init (Some payload))],
              Returned {| statusCode := 200;
                          headers := raw;
                          body := utf8 B;
                          encoding := "utf8" |})).
Proof.
  intros request B Hdrain members member header payload.
  assert (Json.stringify (Json.Obj members) = Some payload) as Hpayload.
  { subst members payload member header.
    rewrite (stringify_request request (Base64.encode B) _
               (stringify_headers_text (Http.headers request))).
    rewrite quote_encode. reflexivity. }
  assert (forall (w : World) (h : Handler) (srv : Edge.Server)
                 (response : NodeFetch.Response) (utf8 : list byte -> string),
             server h = Some srv ->
             fetch w (Edge.url srv) (fetch_init (Some payload))
             = inr response ->
             NodeFetch.status response = 200%Z ->
             NodeFetch.text response = inr (utf8 B) ->
             handle w h request
             = ([Fetch (Edge.url srv) (fetch_init (Some payload))],
                Returned {| statusCode := 200;
                            headers :=
                              NodeFetch.raw (NodeFetch.headers response);
                            body := utf8 B;
                            encoding := "utf8" |})) as Hecho.
  { intros w h srv response utf8 Hrun Hans Hstatus Hread.
    rewrite <- Hpayload in Hans |- *.
    rewrite (handle_answered w h srv request B response (utf8 B)
               Hrun Hdrain Hans Hread).
    rewrite Hstatus. cbn [Z.leb Z.compare]. rewrite andb_false_r.
    reflexivity. }
  split.
  { unfold serializeRequest, streamToBuffer. rewrite Hdrain. cbn.
    fold members. rewrite Hpayload. reflexivity. }
  split; [exact Hpayload|].
  split; [exact read_quote|].
  split.
  { transitivity
      (JsonReader.read_string (Json.quote (Base64.encode B) +:+ "}"));
      [|apply read_quote].
    rewrite quote_encode, append_cons, string_app_assoc. reflexivity. }
  split.
  { destruct (payload_closes request B) as (p & pre & Hp & Hpre).
    fold members in Hp. rewrite Hpayload in Hp. injection Hp as <-.
    rewrite Hpre. apply body_of_payload_closed, encode_is_char. }
  split; [apply decode_encode|].
  do 4 (split; [reflexivity|]).
  split; [exact Hecho|].
  intros utf8 raw rel.
  apply (Hecho (Echo.world utf8 raw) (Demo.running rel) Demo.edge_server
           (Demo.response 200 raw (utf8 B)) utf8 eq_refl);
    [|reflexivity|reflexivity].
  cbn [fetch Echo.world Demo.world Edge.url Demo.edge_server].
  unfold Echo.respond. rewrite <- Hpayload. subst members.
  rewrite echo_decodes. reflexivity.
Qed.

Lemma request_round_trip_witness :
  serializeRequest Notes.post_note
  = ([], Returned
           (Some
              (Notes.requote
                 "{`url`:`/api/notes?q=\`a b\``,`method`:`POST`,`headers`:{`x-note`:`say \`hi\`\\now\t\n`,`accept`:[`text/plain`,`*/*`]},`body`:`SGk=`}")))
  /\ JsonReader.read_string
       (Notes.requote "`say \`hi\`\\now\t\n`,`accept`")
     = Some (Notes.requote "say `hi`\now" +:+ Notes.tab +:+ nl,
             Notes.requote ",`accept`")
  /\ Base64.decode "SGk=" = Some [Byte.x48; Byte.x69]
  /\ handle
       (Echo.world string_of_list_byte [("content-type", ["text/plain"])])
       (Demo.running "api/notes.js") Notes.post_note
     = ([Fetch "http://127.0.0.1:3000/"
           (fetch_init
              (Some
                 (Notes.requote
                    "{`url`:`/api/notes?q=\`a b\``,`method`:`POST`,`headers`:{`x-note`:`say \`hi\`\\now\t\n`,`accept`:[`text/plain`,`*/*`]},`body`:`SGk=`}")))],
        Returned {| statusCode := 200;
                    headers := [("content-type", ["text/plain"])];
                    body := "Hi";
                    encoding := "utf8" |})
  /\ serializeRequest Notes.bare
     = ([], Returned (Some (Notes.requote "{`headers`:{},`body`:``}"))).
Proof.
  pose proof (request_round_trip Notes.post_note [Byte.x48; Byte.x69] eq_refl)
    as Hnote.
  cbv zeta in Hnote.
  destruct Hnote
    as (Hser & _ & Hread & _ & _ & Hdecode & _ & _ & _ & _ & _ & Hecho).
  pose proof (request_round_trip Notes.bare [] eq_refl) as Hbare.
  cbv zeta in Hbare. destruct Hbare as (Hser0 & _).
  split; [rewrite Hser; reflexivity|].
  split.
  { exact (Hread (Notes.requote "say `hi`\now" +:+ Notes.tab +:+ nl)
             (Notes.requote ",`accept`")). }
  split; [exact Hdecode|].
  split.
  { rewrite (Hecho string_of_list_byte [("content-type", ["text/plain"])]
               "api/notes.js").
    reflexivity. }
  rewrite Hser0. reflexivity.
Defined.
